(** * embellij: a shallow embedding of the static site generator

    The development follows [embellij.js].  JavaScript strings are sequences
    of UTF-16 code units, page records are objects used as maps from
    property names to values, [site.pages] is the store the [subpages]
    arrays point into, and the file system is a finite map from paths to
    files.  The npm packages the program calls (commonmark, pug, slug,
    normalization, yaml-front-matter, dateformat, globule), the [path]
    module and [JSON] are collaborators: they are the members of a class
    the program is parameterised by.  The lodash helpers and the built-in
    [Date.parse] are written out from their documentation. *)

From Stdlib Require Import ZArith NArith Ascii String Decimal.
From stdpp Require Import base option list gmap fin_maps sorting.

Local Open Scope N_scope.

(** ** Strings *)

(** A JavaScript string: the list of its UTF-16 code units.
    [str.charCodeAt(i)] is the [i]-th element, [str.length] the length. *)
Abbreviation jsstring := (list N).

(** A string literal of the program (ASCII only). *)
Definition lit (s : string) : jsstring :=
  map N_of_ascii (list_ascii_of_string s).
Global Arguments lit : simpl never.

(** [String(c)] for a non-negative integer [c]: its decimal digits. *)
Fixpoint uint_chars (d : Decimal.uint) : jsstring :=
  match d with
  | Decimal.Nil => []
  | Decimal.D0 d => 48 :: uint_chars d
  | Decimal.D1 d => 49 :: uint_chars d
  | Decimal.D2 d => 50 :: uint_chars d
  | Decimal.D3 d => 51 :: uint_chars d
  | Decimal.D4 d => 52 :: uint_chars d
  | Decimal.D5 d => 53 :: uint_chars d
  | Decimal.D6 d => 54 :: uint_chars d
  | Decimal.D7 d => 55 :: uint_chars d
  | Decimal.D8 d => 56 :: uint_chars d
  | Decimal.D9 d => 57 :: uint_chars d
  end.

Definition number_toString (c : N) : jsstring := uint_chars (N.to_uint c).
Global Arguments number_toString : simpl never.

(** [str.charCodeAt(i)]; out of range it is NaN, which the loop below never
    reaches (the index is tested against the length first). *)
Definition charCodeAt (str : jsstring) (i : nat) : option N := str !! i.

(** ** convertUnicodeCharsToHtml (embellij.js, lines 59-76) *)

(** The body of [while (i < strLength)], with the remaining number of
    iterations as the structural argument. *)
Fixpoint convertUnicode_loop (fuel : nat) (str : jsstring) (i : nat)
    (result : jsstring) : jsstring :=
  match fuel with
  | O => result
  | S fuel' =>
      if decide (i < length str)%nat then
        match charCodeAt str i with
        | Some c =>
            if c <=? 127
            then convertUnicode_loop fuel' str (S i) (result ++ [c])
            else convertUnicode_loop fuel' str (S i)
                   (result ++ lit "&#" ++ number_toString c ++ lit ";")
        | None => result
        end
      else result
  end.

Definition convertUnicodeCharsToHtml (str : jsstring) : jsstring :=
  let strLength := length str in
  if decide (strLength = 0%nat) then []
  else convertUnicode_loop strLength str 0 [].

(** What the loop does to one code unit. *)
Definition escape_unit (c : N) : jsstring :=
  if c <=? 127 then [c] else lit "&#" ++ number_toString c ++ lit ";".

Definition is_ascii (c : N) : Prop := c <= 127.

Local Close Scope N_scope.
Local Open Scope Z_scope.

(** ** Values, pages, the site and the file system *)

(** The values a page property holds.  Numbers are the integral ones; a
    [VDate] is a [Date] object with its time value in milliseconds; a [VIso]
    is the ISO-8601 string, to the millisecond, that [JSON.stringify] writes
    for such a date and [JSON.parse] gives back as a string.  [subpages]
    holds references to pages: positions in [site.pages]. *)
Inductive JSVal : Type :=
  | VUndefined
  | VNull
  | VBool (b : bool)
  | VNum (n : Z)
  | VStr (s : jsstring)
  | VDate (ms : Z)
  | VIso (ms : Z)
  | VRefs (l : list nat)
  | VRefObj (l : list nat).

#[global] Instance JSVal_eq_dec : EqDecision JSVal.
Proof. solve_decision. Defined.

(** A page is a JavaScript object: a finite map from property names. *)
Abbreviation Page := (gmap jsstring JSVal).

(** [page.key]: a missing property reads as [undefined]. *)
Definition get (p : Page) (key : jsstring) : JSVal :=
  default VUndefined (p !! key).

(** What [if (v)] and [!v] test. *)
Definition truthy (v : JSVal) : bool :=
  match v with
  | VUndefined | VNull => false
  | VBool b => b
  | VNum n => negb (n =? 0)
  | VStr s => negb (bool_decide (s = []))
  | VDate _ | VIso _ | VRefs _ | VRefObj _ => true
  end.

(** [_.assign(page, source)]: the properties of [source] overwrite. *)
Definition lodash_assign (page source : Page) : Page := source ∪ page.

(** [defaultPage] (lines 104-123). *)
Definition defaultPage : Page :=
  list_to_map
    [ (lit "template", VStr (lit "default.pug"));
      (lit "filename", VNull);
      (lit "checksum", VStr []);
      (lit "excerpt", VStr []);
      (lit "content", VStr []);
      (lit "title", VStr []);
      (lit "category", VStr []);
      (lit "relSiteUrl", VStr []);
      (lit "dateFormatString", VNull);
      (lit "date", VNull);
      (lit "slug", VNull);
      (lit "url", VStr []);
      (lit "target", VStr []);
      (lit "index", VBool false);
      (lit "sortKey", VNull);
      (lit "sortReverse", VBool true);
      (lit "subpages", VRefs []);
      (lit "maxSubpages", VNull) ].

(** The [site] object: the literal of the main block (lines 316-330) and
    [forced], the property [processSite] reads, which that literal does not
    have: it is [VUndefined] unless a configuration file assigns it. *)
Record Site := mkSite {
  url : jsstring;
  outputDir : jsstring;
  files : list jsstring;
  contentDir : jsstring;
  pages : list Page;
  templateDir : jsstring;
  mediaDir : jsstring;
  cachedPages : jsstring;
  readExts : list jsstring;
  writeExt : jsstring;
  dateFormatString : jsstring;
  recursive : JSVal;
  force : JSVal;
  forced : JSVal
}.

Definition set_pages (site : Site) (ps : list Page) : Site :=
  mkSite (url site) (outputDir site) (files site) (contentDir site) ps
    (templateDir site) (mediaDir site) (cachedPages site) (readExts site)
    (writeExt site) (dateFormatString site) (recursive site) (force site)
    (forced site).

Definition set_files (site : Site) (fl : list jsstring) : Site :=
  mkSite (url site) (outputDir site) fl (contentDir site) (pages site)
    (templateDir site) (mediaDir site) (cachedPages site) (readExts site)
    (writeExt site) (dateFormatString site) (recursive site) (force site)
    (forced site).

(** The site the main block builds before it reads a configuration file:
    [site.recursive] and [site.force] come from the command line. *)
Definition main_site (parsed_recursive parsed_force : JSVal) : Site :=
  {| url := []; outputDir := lit "."; files := []; contentDir := [];
     pages := []; templateDir := lit "."; mediaDir := lit ".";
     cachedPages := [];
     readExts := [lit ".md"; lit ".txt"; lit ".mkd"; lit ".markdown"];
     writeExt := lit ".html"; dateFormatString := lit "fullDate";
     recursive := parsed_recursive; force := parsed_force;
     forced := VUndefined |}.

(** What [_.assign(site, yaml.safeLoad(text))] (line 338) does for a
    configuration file that sets [cachedPages] and [force]. *)
Definition configured (site : Site) (cache : jsstring) (forceFlag : JSVal)
    : Site :=
  mkSite (url site) (outputDir site) (files site) (contentDir site)
    (pages site) (templateDir site) (mediaDir site) cache (readExts site)
    (writeExt site) (dateFormatString site) (recursive site) forceFlag
    (forced site).

(** A file: its modification time (milliseconds) and its text. *)
Record File := mkFile { mtime : Z; data : jsstring }.

(** The file system: the regular files by path, and the time a write
    stamps on a file.  Directories are not stored: whether a path names one
    is the answer of [lstat_isDirectory], a collaborator. *)
Record FS := mkFS { entries : gmap jsstring File; clock : Z }.

(** [isFile] (lines 32-39): [lstatSync] throws on a missing path. *)
Definition isFile (fs : FS) (f : jsstring) : bool :=
  bool_decide (is_Some (entries fs !! f)).

(** [getModifiedDate] (lines 99-102); [statSync] throws on a missing
    file, and [new Date(stats.mtime)] copies the time value, milliseconds
    included. *)
Definition getModifiedDate (fs : FS) (file : jsstring) : option JSVal :=
  f ← entries fs !! file; Some (VDate (mtime f)).

(** [fs.ensureDirSync(path.dirname(file))] followed by
    [fs.writeFileSync(file, text)].  Both are taken to succeed: a write the
    operating system refuses is not modelled. *)
Definition writeFileSync (fs : FS) (file text : jsstring) : FS :=
  mkFS (<[file := mkFile (clock fs) text]> (entries fs)) (clock fs).

(** ** Collaborators *)

(** The packages and host functions the program calls.  A result in
    [option] is [None] when the call throws. *)
Class Collaborators := {
  (** [writer.render(reader.parse(text))] of commonmark *)
  commonmark_render : jsstring → jsstring;
  (** yaml-front-matter: the metadata mapping and the body of a source *)
  frontMatter_parse : jsstring → option (Page * jsstring);
  slug : jsstring → jsstring;
  normalize : jsstring → jsstring;
  path_extname : jsstring → jsstring;
  path_basename : jsstring → jsstring;
  path_dirname : jsstring → jsstring;
  path_join : jsstring → jsstring → jsstring;
  path_relative : jsstring → jsstring → jsstring;
  globule_find : FS → jsstring → list jsstring;
  (** [new Date(v)] *)
  new_Date : JSVal → JSVal;
  (** [dateFormat(date, mask)] *)
  dateFormat : JSVal → JSVal → option JSVal;
  (** [pug.compileFile(template)({page, site})]: the template's path and
      text, the page and the site *)
  pug_render : jsstring → jsstring → Page → Site → option jsstring;
  (** [__dirname] *)
  script_dirname : jsstring;
  (** the text of the ISO string of a time value *)
  toISOString : Z → jsstring;
  (** string conversion of dates and objects *)
  ToString_object : JSVal → jsstring;
  (** [toInteger] of lodash on strings, dates and objects *)
  toInteger_other : JSVal → Z;
  (** [Date.parse] on the text of a string *)
  Date_parse_string : jsstring → option Z;
  (** the number a string reads as, NaN ([None]) when it is no numeral *)
  ToNumber_string : jsstring → option Z;
  (** whether a directory sits at a path: [lstatSync(path).isDirectory()],
      [false] when [lstatSync] throws.  The [FS] record holds the files;
      its directories are given by this predicate. *)
  lstat_isDirectory : FS → jsstring → bool;
  JSON_stringify : list Page → jsstring;
  JSON_parse : jsstring → option (list Page)
}.

(** ** The program *)

Section Program.
Context {collab : Collaborators}.

(** [isDirectory] (lines 41-48). *)
Definition isDirectory (fs : FS) (file : jsstring) : bool :=
  lstat_isDirectory fs file.

(** [fs.existsSync]: something is at the path, a file or a directory
    (other kinds of entries are not modelled). *)
Definition existsSync (fs : FS) (f : jsstring) : bool :=
  isFile fs f || isDirectory fs f.

(** String conversion, as property keys and [+] with a string use it. *)
Definition ToString (v : JSVal) : jsstring :=
  match v with
  | VUndefined => lit "undefined"
  | VNull => lit "null"
  | VBool true => lit "true"
  | VBool false => lit "false"
  | VNum n => (if n <? 0 then lit "-" else []) ++ number_toString (Z.abs_N n)
  | VStr s => s
  | VIso ms => toISOString ms
  | VDate _ | VRefs _ | VRefObj _ => ToString_object v
  end.

(** A string argument of the [path] functions and of [writeFileSync], which
    throw on any other value. *)
Definition as_string (v : JSVal) : option jsstring :=
  match v with
  | VStr s => Some s
  | VIso ms => Some (toISOString ms)
  | _ => None
  end.

(** [Date.parse(v)]: the argument is converted to a string and the string is
    parsed; the result is a time value or NaN ([None]).  [Date.prototype.
    toString] prints a date to the second, without milliseconds, so parsing
    a [Date] object gives its time value with the milliseconds dropped; an
    ISO string keeps its milliseconds. *)
Definition Date_parse (v : JSVal) : option Z :=
  match v with
  | VUndefined | VNull | VBool _ => None
  | VDate ms => Some (1000 * (ms `div` 1000))
  | VIso ms => Some ms
  | VNum _ | VStr _ | VRefs _ | VRefObj _ => Date_parse_string (ToString v)
  end.

(** [a == b], [a != b] and [a >= b] on numbers, one of which may be NaN. *)
Definition num_eq (a b : option Z) : bool :=
  match a, b with
  | Some x, Some y => bool_decide (x = y)
  | _, _ => false
  end.

Definition num_ne (a b : option Z) : bool := negb (num_eq a b).

Definition num_ge (a b : option Z) : bool :=
  match a, b with
  | Some x, Some y => bool_decide (y ≤ x)
  | _, _ => false
  end.

(** [stripExtOfPathname] (lines 54-57). *)
Definition stripExtOfPathname (filename : jsstring) : jsstring :=
  let n := (length filename - length (path_extname filename))%nat in
  take n filename.

(** [getFiles] (lines 78-90). *)
Definition getFiles (fs : FS) (dir : jsstring) (exts : list jsstring)
    (rec : JSVal) : list jsstring :=
  foldl (λ found ext,
           let fileTag :=
             if truthy rec then path_join dir (lit "**/*" ++ ext)
             else path_join dir (lit "*" ++ ext) in
           found ++ globule_find fs fileTag)
        [] exts.

(** [convertCommonmarkToHtml] (lines 92-97). *)
Definition convertCommonmarkToHtml (text : jsstring) : jsstring :=
  convertUnicodeCharsToHtml (commonmark_render text).

(** The same on a property value: the commonmark parser throws on a value
    that is not a string. *)
Definition convertContent (v : JSVal) : option JSVal :=
  text ← as_string v; Some (VStr (convertCommonmarkToHtml text)).

(** [_.uniq]: the first occurrence of each element is kept. *)
Fixpoint uniq_from (seen l : list jsstring) : list jsstring :=
  match l with
  | [] => []
  | x :: l' =>
      if decide (x ∈ seen) then uniq_from seen l'
      else x :: uniq_from (x :: seen) l'
  end.

Definition lodash_uniq (l : list jsstring) : list jsstring := uniq_from [] l.

(** [yamlFront.loadFront(file, 'content')]: the metadata with the body
    under the key [content]. *)
Definition loadFront (fs : FS) (file : jsstring) : option Page :=
  f ← entries fs !! file;
  '(meta, body) ← frontMatter_parse (data f);
  Some (<[lit "content" := VStr body]> meta).

(** *** readPages (lines 126-189) *)

(** Lines 136-139: the cached pages by file name; a later record of the
    same name replaces an earlier one. *)
Definition cachedPagesOf (ps : list Page) : gmap jsstring Page :=
  foldl (λ cached page, <[ToString (get page (lit "filename")) := page]> cached)
        ∅ ps.

(** Lines 146-150: the default page, overlaid with the cached record. *)
Definition startPage (cached : gmap jsstring Page) (file : jsstring) : Page :=
  let page := defaultPage in
  let page :=
    match cached !! file with
    | Some c => lodash_assign page c
    | None => page
    end in
  <[lit "filename" := VStr file]> page.

(** Line 153: the staleness test. *)
Definition isStale (modified : JSVal) (page : Page) : bool :=
  num_ne (Date_parse modified) (Date_parse (get page (lit "modified"))).

(** Lines 152-159: the page after the test and whether the file was
    skipped. *)
Definition refreshPage (fs : FS) (file : jsstring) (page : Page)
    : option (Page * bool) :=
  modified ← getModifiedDate fs file;
  if isStale modified page then
    front ← loadFront fs file;
    let page := lodash_assign page front in
    content ← convertContent (get page (lit "content"));
    let page := <[lit "content" := content]> page in
    let page := <[lit "modified" := modified]> page in
    Some (page, false)
  else Some (page, true).

(** Lines 161-163. *)
Definition normalizeDate (page : Page) : Page :=
  if truthy (get page (lit "date"))
  then <[lit "date" := new_Date (get page (lit "date"))]> page
  else page.

(** Lines 164-167. *)
Definition deriveSlug (page : Page) : option Page :=
  if negb (truthy (get page (lit "slug"))) then
    filename ← as_string (get page (lit "filename"));
    let name := path_basename (stripExtOfPathname filename) in
    Some (<[lit "slug" := VStr (slug (normalize name))]> page)
  else Some page.

(** Line 168. *)
Definition reconvertContent (page : Page) : option Page :=
  content ← convertContent (get page (lit "content"));
  Some (<[lit "content" := content]> page).

(** Lines 169-173. *)
Definition deriveUrl (site : Site) (page : Page) : option Page :=
  if negb (truthy (get page (lit "url"))) then
    filename ← as_string (get page (lit "filename"));
    let dirname := path_dirname filename in
    let full_url :=
      path_join dirname (ToString (get page (lit "slug")) ++ writeExt site) in
    Some (<[lit "url" := VStr (path_relative (contentDir site) full_url)]> page)
  else Some page.

(** Lines 174-176. *)
Definition deriveTarget (page : Page) : Page :=
  if negb (truthy (get page (lit "target")))
  then <[lit "target" := get page (lit "url")]> page
  else page.

(** Lines 177-180. *)
Definition deriveRelSiteUrl (page : Page) : option Page :=
  target ← as_string (get page (lit "target"));
  let rel := path_relative (path_dirname target) (lit ".") in
  Some (<[lit "relSiteUrl" := VStr (if decide (rel = []) then lit "." else rel)]>
          page).

(** One iteration of the loop over [site.files] (lines 144-183). *)
Definition readPage (site : Site) (fs : FS) (cached : gmap jsstring Page)
    (file : jsstring) : option (Page * bool) :=
  let page := startPage cached file in
  '(page, skipped) ← refreshPage fs file page;
  let page := normalizeDate page in
  page ← deriveSlug page;
  page ← reconvertContent page;
  page ← deriveUrl site page;
  let page := deriveTarget page in
  page ← deriveRelSiteUrl page;
  Some (page, skipped).

Fixpoint readPages_loop (site : Site) (fs : FS) (cached : gmap jsstring Page)
    (todo : list jsstring) (done_pages : list Page) (nSkip : nat)
    : option (list Page * nat) :=
  match todo with
  | [] => Some (done_pages, nSkip)
  | file :: todo' =>
      '(page, skipped) ← readPage site fs cached file;
      readPages_loop site fs cached todo' (done_pages ++ [page])
        (if (skipped : bool) then S nSkip else nSkip)
  end.

(** [readPages]: the site with its pages resolved, and [nSkip]. *)
Definition readPages (site : Site) (fs : FS) : option (Site * nat) :=
  let site :=
    if negb (bool_decide (contentDir site = [])) then
      set_files site
        (files site
           ++ getFiles fs (contentDir site) (readExts site) (recursive site))
    else site in
  let site := set_files site (lodash_uniq (files site)) in
  let cached := cachedPagesOf (pages site) in
  '(ps, nSkip) ← readPages_loop site fs cached (files site) [] 0%nat;
  Some (set_pages site ps, nSkip).

(** *** generateIndexableSubpages (lines 191-212) *)

(** The page a reference points to. *)
Definition deref (store : list Page) (i : nat) : Page :=
  default ∅ (store !! i).

(** The predicate lodash builds from [{key: v}]. *)
Definition matchesProperty (p : Page) (key : jsstring) (v : JSVal) : Prop :=
  get p key = v ∧ (v ≠ VUndefined ∨ is_Some (p !! key)).

#[global] Instance matchesProperty_dec p key v :
  Decision (matchesProperty p key v).
Proof. unfold matchesProperty. apply _. Defined.

(** What the variable [subpages] holds: [_.omitBy] on an array gives a plain
    object keyed by the positions it kept; [_.filter], [_.sortBy] and
    [_.take] give arrays.  Both list references to pages, in order. *)
Inductive Collection : Type :=
  | CObject (refs : list nat)
  | CArray (refs : list nat).

Definition collection_refs (c : Collection) : list nat :=
  match c with CObject l | CArray l => l end.

Definition collection_value (c : Collection) : JSVal :=
  match c with CObject l => VRefObj l | CArray l => VRefs l end.

(** [_.omitBy(site.pages, {key: v})]. *)
Definition lodash_omitBy (store : list Page) (key : jsstring) (v : JSVal)
    : Collection :=
  CObject (filter (λ i, ¬ matchesProperty (deref store i) key v)
                  (seq 0 (length store))).

(** [_.filter(subpages, {key: v})]. *)
Definition lodash_filter (store : list Page) (c : Collection)
    (key : jsstring) (v : JSVal) : Collection :=
  CArray (filter (λ i, matchesProperty (deref store i) key v)
                 (collection_refs c)).

(** Strings compare by code units. *)
Fixpoint str_compare (s t : jsstring) : comparison :=
  match s, t with
  | [], [] => Eq
  | [], _ :: _ => Lt
  | _ :: _, [] => Gt
  | a :: s', b :: t' =>
      match N.compare a b with
      | Eq => str_compare s' t'
      | c => c
      end
  end.

(** What [>] and [<] compare: the primitive value of each operand, a
    number (NaN is [None]) or a string.  A [Date] compares by its time
    value; arrays and objects by their string conversion. *)
Inductive Primitive : Type :=
  | PNumber (n : option Z)
  | PString (s : jsstring).

Definition ToPrimitive (v : JSVal) : Primitive :=
  match v with
  | VUndefined => PNumber None
  | VNull => PNumber (Some 0)
  | VBool true => PNumber (Some 1)
  | VBool false => PNumber (Some 0)
  | VNum n => PNumber (Some n)
  | VDate ms => PNumber (Some ms)
  | VStr s => PString s
  | VIso ms => PString (toISOString ms)
  | VRefs _ | VRefObj _ => PString (ToString_object v)
  end.

(** The number a primitive value compares as when the other operand is no
    string. *)
Definition relational_number (p : Primitive) : option Z :=
  match p with
  | PNumber n => n
  | PString s => ToNumber_string s
  end.

(** [a > b]: two strings compare by code units, anything else as
    numbers, and a comparison with NaN is false. *)
Definition js_gt (a b : JSVal) : bool :=
  match ToPrimitive a, ToPrimitive b with
  | PString s, PString t => bool_decide (str_compare s t = Gt)
  | pa, pb =>
      match relational_number pa, relational_number pb with
      | Some x, Some y => bool_decide (y < x)
      | _, _ => false
      end
  end.

Definition js_lt (a b : JSVal) : bool := js_gt b a.

Definition isNull (v : JSVal) : bool := bool_decide (v = VNull).
Definition isDefined (v : JSVal) : bool := negb (bool_decide (v = VUndefined)).

(** [compareAscending] of lodash: [null] and [undefined] sort last. *)
Definition compareAscending (value other : JSVal) : comparison :=
  if decide (value = other) then Eq
  else if (negb (isNull other) && js_gt value other)
          || (isNull value && isDefined other)
          || negb (isDefined value)
  then Gt
  else if (negb (isNull value) && js_lt value other)
          || (isNull other && isDefined value)
          || negb (isDefined other)
  then Lt
  else Eq.

(** [_.sortBy] is a stable sort in ascending order of the criteria: an
    element goes before the first one that is not smaller than it. *)
Fixpoint sort_insert (criteria : nat → JSVal) (x : nat) (l : list nat)
    : list nat :=
  match l with
  | [] => [x]
  | y :: l' =>
      match compareAscending (criteria x) (criteria y) with
      | Gt => y :: sort_insert criteria x l'
      | _ => x :: y :: l'
      end
  end.

Definition stable_sort (criteria : nat → JSVal) (l : list nat) : list nat :=
  foldr (sort_insert criteria) [] l.

(** [_.sortBy(subpages, iteratee)]: the iteratee names a property. *)
Definition lodash_sortBy (store : list Page) (c : Collection)
    (iteratee : JSVal) : Collection :=
  CArray (stable_sort (λ i, get (deref store i) (ToString iteratee))
                      (collection_refs c)).

(** [_.reverse]: an array is reversed, an object is left as it is. *)
Definition lodash_reverse (c : Collection) : Collection :=
  match c with
  | CArray l => CArray (reverse l)
  | CObject l => CObject l
  end.

(** [toInteger]. *)
Definition toInteger (v : JSVal) : Z :=
  match v with
  | VNum n => n
  | VBool true => 1
  | VBool false | VNull | VUndefined => 0
  | _ => toInteger_other v
  end.

(** [_.take(subpages, n)]: the leading [n] elements of an array, none for a
    negative [n]; an object has no length, and the result is empty. *)
Definition lodash_take (c : Collection) (n : JSVal) : Collection :=
  match c with
  | CArray l => CArray (take (Z.to_nat (toInteger n)) l)
  | CObject _ => CArray []
  end.

(** Lines 194-206: the collection an index page gets. *)
Definition indexSubpages (store : list Page) (page : Page) : Collection :=
  let subpages := lodash_omitBy store (lit "index") (VBool true) in
  let subpages :=
    if truthy (get page (lit "category"))
    then lodash_filter store subpages (lit "category")
           (get page (lit "category"))
    else subpages in
  let subpages :=
    if truthy (get page (lit "sortKey")) then
      let subpages := lodash_sortBy store subpages (get page (lit "sortKey")) in
      if truthy (get page (lit "sortReverse"))
      then lodash_reverse subpages
      else subpages
    else subpages in
  let subpages :=
    if truthy (get page (lit "maxSubpages"))
    then lodash_take subpages (get page (lit "maxSubpages"))
    else subpages in
  subpages.

(** One iteration of the loop over [site.pages] (lines 193-210). *)
Definition indexStep (store : list Page) (i : nat) : list Page :=
  match store !! i with
  | Some page =>
      if truthy (get page (lit "index"))
      then <[i := <[lit "subpages" :=
                      collection_value (indexSubpages store page)]> page]> store
      else store
  | None => store
  end.

Definition generateIndexableSubpages (site : Site) : Site :=
  set_pages site (foldl indexStep (pages site) (seq 0 (length (pages site)))).

(** *** getTemplateDir (lines 214-228) *)

(** The loop over [templateDirs]: the first directory that has the
    template, or [null]. *)
Fixpoint firstTemplate (fs : FS) (template_name : jsstring)
    (templateDirs : list jsstring) : option jsstring :=
  match templateDirs with
  | [] => None
  | dir :: dirs =>
      let template := path_join dir template_name in
      if existsSync fs template then Some template
      else firstTemplate fs template_name dirs
  end.

Definition templateDirsOf (site : Site) (filename : jsstring)
    : list jsstring :=
  [ path_dirname filename;
    templateDir site;
    path_join script_dirname (lit "defaults") ].

(** The outer [option] is [None] when a [path] function throws. *)
Definition getTemplateDir (fs : FS) (page : Page) (site : Site)
    : option (option jsstring) :=
  filename ← as_string (get page (lit "filename"));
  template_name ← as_string (get page (lit "template"));
  Some (firstTemplate fs template_name (templateDirsOf site filename)).

(** *** writePages (lines 230-275) *)

(** Lines 237-240: the pages whose [date] is formatted, the page itself
    first.  An object among them that is no page gets a [date] of its own;
    [undefined], [null] and primitive values make the assignment throw. *)
Definition datedPages (i : nat) (subpages : JSVal) : option (list nat * bool) :=
  match subpages with
  | VRefs l => Some (i :: l, false)
  | VRefObj _ | VDate _ => Some ([i], true)
  | _ => None
  end.

Fixpoint formatDates (fmt : JSVal) (refs : list nat) (store : list Page)
    : option (list Page) :=
  match refs with
  | [] => Some store
  | r :: refs' =>
      page ← store !! r;
      date ← dateFormat (get page (lit "date")) fmt;
      formatDates fmt refs' (<[r := <[lit "date" := date]> page]> store)
  end.

(** Lines 244-252: whether the write is skipped. *)
Definition skipWrite (fs : FS) (outHtml : jsstring) (page : Page) : bool :=
  if isFile fs outHtml then
    match getModifiedDate fs outHtml with
    | Some writeTime =>
        if num_eq (Date_parse writeTime)
                  (Date_parse (get page (lit "writeTime")))
        then num_ge (Date_parse writeTime)
                    (Date_parse (get page (lit "modified")))
        else false
    | None => false
    end
  else false.

(** [_.endsWith(template, 'pug')]; [null] converts to the empty string. *)
Definition lodash_endsWith (template : option jsstring) (target : jsstring)
    : bool :=
  match template with
  | Some t => bool_decide (target `suffix_of` t)
  | None => false
  end.

(** What an iteration did with the output file. *)
Inductive WriteOutcome : Type :=
  | Skipped
  | Written (template : option jsstring) (outHtml text : jsstring).

(** Lines 254-263: the text to write. *)
Definition renderPage (fs : FS) (site : Site) (store : list Page)
    (page : Page) (template : option jsstring) : option jsstring :=
  if lodash_endsWith template (lit "pug") then
    t ← template;
    f ← entries fs !! t;
    pug_render t (data f) page (set_pages site store)
  else as_string (get page (lit "content")).

(** Lines 233-242: the dates are formatted and the output path is
    computed.  The result is the store, the page and [outHtml]. *)
Definition prepareWrite (site : Site) (store : list Page) (i : nat)
    : option (list Page * Page * jsstring) :=
  page ← store !! i;
  let fmt :=
    if truthy (get page (lit "dateFormatString"))
    then get page (lit "dateFormatString")
    else VStr (dateFormatString site) in
  '(refs, other) ← datedPages i (get page (lit "subpages"));
  store ← formatDates fmt refs store;
  _ ← (if (other : bool) then dateFormat VUndefined fmt else Some VUndefined);
  page ← store !! i;
  target ← as_string (get page (lit "target"));
  Some (store, page, path_join (outputDir site) target).

(** One iteration of the loop over [site.pages] (lines 232-270). *)
Definition writePage (site : Site) (fs : FS) (store : list Page) (i : nat)
    : option (list Page * FS * WriteOutcome) :=
  '(store, page, outHtml) ← prepareWrite site store i;
  if skipWrite fs outHtml page then Some (store, fs, Skipped)
  else
    template ← getTemplateDir fs page site;
    text ← renderPage fs site store page template;
    let fs := writeFileSync fs outHtml text in
    writeTime ← getModifiedDate fs outHtml;
    let page := <[lit "writeTime" := writeTime]> page in
    Some (<[i := page]> store, fs, Written template outHtml text).

Fixpoint writePages_loop (site : Site) (todo : list nat) (fs : FS)
    (store : list Page) (nSkip : nat) : option (list Page * FS * nat) :=
  match todo with
  | [] => Some (store, fs, nSkip)
  | i :: todo' =>
      '(store, fs, outcome) ← writePage site fs store i;
      writePages_loop site todo' fs store
        (match outcome with Skipped => S nSkip | Written _ _ _ => nSkip end)
  end.

Definition writePages (site : Site) (fs : FS) : option (Site * FS * nat) :=
  '(store, fs, nSkip) ←
     writePages_loop site (seq 0 (length (pages site))) fs (pages site) 0%nat;
  Some (set_pages site store, fs, nSkip).

(** *** processSite (lines 277-294) *)

(** Lines 278-282: the pages of the cache file are appended to
    [site.pages]. *)
Definition loadCachedPages (site : Site) (fs : FS) : option Site :=
  if negb (truthy (forced site)) && isFile fs (cachedPages site) then
    f ← entries fs !! cachedPages site;
    records ← JSON_parse (data f);
    Some (set_pages site (pages site ++ records))
  else Some site.

(** Line 291. *)
Definition clearSubpages (page : Page) : Page :=
  <[lit "subpages" := VRefs []]> page.

(** Lines 289-293. *)
Definition saveCachedPages (site : Site) (fs : FS) : Site * FS :=
  if negb (bool_decide (cachedPages site = [])) then
    let site := set_pages site (map clearSubpages (pages site)) in
    (site, writeFileSync fs (cachedPages site) (JSON_stringify (pages site)))
  else (site, fs).

(** [processSite]; the copy of the media directory, which [fs.copy] starts
    and does not wait for, is left out. *)
Definition processSite (site : Site) (fs : FS) : option (Site * FS) :=
  site ← loadCachedPages site fs;
  '(site, _) ← readPages site fs;
  let site := generateIndexableSubpages site in
  '(site, fs, _) ← writePages site fs;
  Some (saveCachedPages site fs).

End Program.

(** ** Auxiliary definitions for the statements *)

Section Auxiliary.
Context {collab : Collaborators}.

(** The steps of [readPage] after the staleness test. *)
Definition resolvePage (site : Site) (page : Page) : option Page :=
  page ← deriveSlug (normalizeDate page);
  page ← reconvertContent page;
  page ← deriveUrl site page;
  deriveRelSiteUrl (deriveTarget page).

(** The slug [readPage] derives from a file name (lines 165-166). *)
Definition derivedSlug (filename : jsstring) : jsstring :=
  slug (normalize (path_basename (stripExtOfPathname filename))).

End Auxiliary.

(** *** Characters and code units *)

(** A high surrogate (U+D800 to U+DBFF) and a low one (U+DC00 to
    U+DFFF). *)
Definition is_high_surrogate (c : N) : bool :=
  ((55296 <=? c) && (c <=? 56319))%N.

Definition is_low_surrogate (c : N) : bool :=
  ((56320 <=? c) && (c <=? 57343))%N.

(** The characters of a string, as code points: UTF-16 reads a high
    surrogate followed by a low surrogate as one character outside the
    BMP, and any other code unit as a character by itself. *)
Fixpoint codePoints (s : jsstring) : list N :=
  match s with
  | [] => []
  | c :: rest =>
      match rest with
      | lo :: rest' =>
          if is_high_surrogate c && is_low_surrogate lo
          then (65536 + (c - 55296) * 1024 + (lo - 56320))%N :: codePoints rest'
          else c :: codePoints rest
      | [] => [c]
      end
  end.

(** The numeric character reference [&#n;]. *)
Definition characterReference (n : N) : jsstring :=
  lit "&#" ++ number_toString n ++ lit ";".

(** Escaping by characters: every character above code point 127 replaced
    by its numeric character reference, every ASCII character kept. *)
Definition escapeCharacters (s : jsstring) : jsstring :=
  concat (map (λ cp, if (cp <=? 127)%N then [cp] else characterReference cp)
              (codePoints s)).

(** [p'] reads as [p] does on every property other than [key]. *)
Definition agree_off (key : jsstring) (p p' : Page) : Prop :=
  ∀ k, k ≠ key → get p' k = get p k.

(** A property that, when present, is a string. *)
Definition str_or_absent (r : Page) (key : jsstring) : Prop :=
  r !! key = None ∨ ∃ s : jsstring, r !! key = Some (VStr s).

(** A front matter or a cached record that keeps [filename], [content],
    [url] and [target] strings: what the [path] functions and the markup
    converter need in order not to throw. *)
Definition plain_record (r : Page) : Prop :=
  str_or_absent r (lit "filename") ∧ str_or_absent r (lit "content")
  ∧ str_or_absent r (lit "url") ∧ str_or_absent r (lit "target").

(** A page on which those four properties are strings. *)
Definition texty (p : Page) : Prop :=
  ∃ filename c u t : jsstring,
    get p (lit "filename") = VStr filename ∧ get p (lit "content") = VStr c
    ∧ get p (lit "url") = VStr u ∧ get p (lit "target") = VStr t.

(** *** Aggregation *)

(** The candidates of an index page of the given category: the references,
    in discovery order, to the pages of that category that are not flagged
    [index: true]. *)
Definition candidates (store : list Page) (category : JSVal) : list nat :=
  filter (λ i, matchesProperty (deref store i) (lit "category") category
               ∧ ¬ matchesProperty (deref store i) (lit "index") (VBool true))
         (seq 0 (length store)).

(** Page [i] comes before page [j] in descending order of the numeric
    property [field], pages of equal value being ordered by [tie]. *)
Definition descending_ties (tie : nat → nat → Prop) (store : list Page)
    (field : jsstring) (i j : nat) : Prop :=
  ∃ zi zj : Z,
    get (deref store i) field = VNum zi ∧ get (deref store j) field = VNum zj
    ∧ (zj < zi ∨ (zi = zj ∧ tie i j)).

(** [result] is the array of the first [k] candidates in the order
    [before]. *)
Definition top_k (before : nat → nat → Prop) (cands : list nat) (k : Z)
    (result : JSVal) : Prop :=
  ∃ L : list nat,
    L ≡ₚ cands ∧ StronglySorted before L
    ∧ result = VRefs (take (Z.to_nat k) L).

(** Ascending by numeric criteria, references of equal criteria in
    ascending order. *)
Definition ascending_stable (criteria : nat → JSVal) (i j : nat) : Prop :=
  ∃ zi zj : Z,
    criteria i = VNum zi ∧ criteria j = VNum zj
    ∧ (zi < zj ∨ (zi = zj ∧ (i < j)%nat)).

Definition numeric (criteria : nat → JSVal) (i : nat) : Prop :=
  ∃ z : Z, criteria i = VNum z.

(** Ties in discovery order: the page found first comes first. *)
Definition discovery_order (i j : nat) : Prop := (i < j)%nat.

(** Ties in reverse discovery order: the page found last comes first. *)
Definition reverse_discovery_order (i j : nat) : Prop := (j < i)%nat.

(** ** A small site to run the program on *)

Module Sample.

(** Collaborators simple enough to evaluate: the markup converter wraps
    its input in a paragraph, a source has no front matter, the slug keeps
    lower-case letters, digits and hyphens, paths are joined with a
    slash, dates are left as they are and a template wraps the content in
    an [html] element.  The directories are [.], [./layouts] and the
    built-in defaults directory. *)
Definition slug_char (c : N) : bool :=
  ((97 <=? c) && (c <=? 122) || (48 <=? c) && (c <=? 57) || (c =? 45))%N.

(** A record of the page cache for [a.md], with the [modified] and
    [writeTime] a previous run recorded. *)
Definition cachedRecord (modified writeTime : JSVal) : Page :=
  <[lit "writeTime" := writeTime]>
    (<[lit "modified" := modified]>
       (<[lit "target" := VStr (lit "a.html")]>
          (<[lit "url" := VStr (lit "a.html")]>
             (<[lit "slug" := VStr (lit "a")]>
                (<[lit "content" := VStr (lit "<p>old</p>")]>
                   (<[lit "filename" := VStr (lit "a.md")]> defaultPage)))))).

Definition cacheOf (record : Page) : gmap jsstring Page :=
  {[ lit "a.md" := record ]}.

(** The collaborators.  A cache file that is not the empty list holds the
    record above. *)
Definition collaborators : Collaborators := {|
  commonmark_render := λ s, lit "<p>" ++ s ++ lit "</p>";
  frontMatter_parse := λ s, Some (∅, s);
  slug := List.filter slug_char;
  normalize := λ s, s;
  path_extname := λ _, lit ".md";
  path_basename := λ s, s;
  path_dirname := λ _, lit ".";
  path_join := λ a b, a ++ lit "/" ++ b;
  path_relative := λ _ b, b;
  globule_find := λ _ _, [];
  new_Date := λ v, v;
  dateFormat := λ v _, Some v;
  pug_render := λ _ _ page _,
    content ← match get page (lit "content") with
              | VStr c => Some c
              | _ => None
              end;
    Some (lit "<html>" ++ content ++ lit "</html>");
  script_dirname := lit "/opt/embellij";
  toISOString := λ _, lit "1970-01-01T00:00:00.000Z";
  ToString_object := λ _, lit "[object Object]";
  toInteger_other := λ _, 0;
  Date_parse_string := λ _, None;
  ToNumber_string := λ _, None;
  lstat_isDirectory := λ _ path,
    bool_decide (path ∈ [lit "."; lit "./layouts";
                         lit "/opt/embellij/defaults"]);
  JSON_stringify := λ ps, if ps is [] then lit "[]" else lit "[{}]";
  JSON_parse := λ text,
    if decide (text = lit "[]") then Some []
    else Some [cachedRecord (VIso 1577836800500) (VIso 1577836801500)]
|}.

(** One source, [a.md], last modified at 2020-01-01T00:00:00.500Z, and the
    built-in default template. *)
Definition site : Site :=
  set_files (main_site VUndefined VUndefined) [lit "a.md"].

Definition fs : FS :=
  mkFS (<[lit "a.md" := mkFile 1577836800500 (lit "hi")]>
          {[ lit "/opt/embellij/defaults/default.pug"
             := mkFile 1500000000000 (lit "html") ]})
       1600000000000.

(** The page of [a.md], re-parsed in this run and never written, whose
    front matter names a template that is in no template directory. *)
Definition untemplated : Page :=
  <[lit "template" := VStr (lit "missing.pug")]>
    (cachedRecord (VDate 1577836800500) VUndefined).

(** Two posts of category [blog] and equal [weight], found in this
    order, and an index page over them. *)
Definition post (name : string) (weight : Z) : Page :=
  <[lit "weight" := VNum weight]>
    (<[lit "category" := VStr (lit "blog")]>
       (<[lit "filename" := VStr (lit name)]> defaultPage)).

Definition blogIndex (maxSubpages : Z) : Page :=
  <[lit "maxSubpages" := VNum maxSubpages]>
    (<[lit "sortKey" := VStr (lit "weight")]>
       (<[lit "category" := VStr (lit "blog")]>
          (<[lit "index" := VBool true]>
             (<[lit "filename" := VStr (lit "index.md")]> defaultPage)))).

Definition blog : list Page :=
  [post "first.md" 1; post "second.md" 1; post "third.md" 7; blogIndex 5].

(** The store after resolution of the sample site from a cache record. *)
Definition store (modified writeTime : JSVal) : list Page :=
  [cachedRecord modified writeTime].

(** The sample file system with an output [./a.html] of the given
    modification time. *)
Definition output (written : Z) : FS :=
  mkFS (<[lit "./a.html" := mkFile written (lit "<p>old</p>")]>
          (entries fs))
       (clock fs).

(** The sample site with a page cache at [cache.json]. *)
Definition cachingSite (forceFlag : JSVal) : Site :=
  configured site (lit "cache.json") forceFlag.

(** The sample file system with the cache file of a previous run. *)
Definition cachedRun : FS :=
  mkFS (<[lit "cache.json" := mkFile 1577836802000 (lit "[{}]")]>
          (entries fs))
       (clock fs).

End Sample.

(** ** Auxiliary definitions for the further properties *)

Section MoreAuxiliary.
Context {collab : Collaborators}.

(** The files [readPages] resolves: the given ones, then the ones found in
    the content directory. *)
Definition discoveredFiles (site : Site) (fs : FS) : list jsstring :=
  files site
  ++ (if decide (contentDir site = []) then []
      else getFiles fs (contentDir site) (readExts site) (recursive site)).

(** The key a page is cached under. *)
Definition cacheKey (p : Page) : jsstring :=
  ToString (get p (lit "filename")).

(** The pattern [getFiles] hands to globule for an extension. *)
Definition fileTagOf (dir : jsstring) (rec : JSVal) (ext : jsstring)
    : jsstring :=
  path_join dir ((if truthy rec then lit "**/*" else lit "*") ++ ext).

End MoreAuxiliary.

(** The references [_.omitBy(site.pages, {index: true})] keeps. *)
Definition nonIndexRefs (store : list Page) : list nat :=
  filter (λ i, ¬ matchesProperty (deref store i) (lit "index") (VBool true))
         (seq 0 (length store)).

(** A list of distinct references taken from [base]. *)
Definition drawn_from (base l : list nat) : Prop :=
  NoDup l ∧ ∀ j, j ∈ l → j ∈ base.

(** *** More sample data *)

Module Sample2.

(** The sample blog with an index page that sorts in ascending order. *)
Definition ascendingBlog : list Page :=
  [ Sample.post "first.md" 1; Sample.post "second.md" 1;
    Sample.post "third.md" 7;
    <[lit "sortReverse" := VBool false]> (Sample.blogIndex 5) ].

(** An index page over the category [blog] without sort key. *)
Definition unsortedIndex : Page :=
  <[lit "category" := VStr (lit "blog")]>
    (<[lit "index" := VBool true]>
       (<[lit "filename" := VStr (lit "index.md")]> defaultPage)).

(** An index page with neither category nor sort key. *)
Definition bareIndex : Page :=
  <[lit "index" := VBool true]>
    (<[lit "filename" := VStr (lit "index.md")]> defaultPage).

(** The page of [a.md] with a template that is no pug template, and a file
    system that has this template beside the source. *)
Definition htmlTemplated : Page :=
  <[lit "template" := VStr (lit "page.html")]>
    (Sample.cachedRecord (VDate 1577836800500) VUndefined).

Definition htmlTemplateFs : FS :=
  mkFS (<[lit "./page.html" := mkFile 1500000000000 (lit "<html>")]>
          (entries Sample.fs))
       (clock Sample.fs).

(** [a.md] untouched since the whole second the cache recorded, with two
    different texts. *)
Definition unchangedFs (text : string) : FS :=
  mkFS {[ lit "a.md" := mkFile 1577836800000 (lit text) ]} 1600000000000.

(** A post and an index page that lists it, as aggregation leaves them;
    the sample [dateFormat] returns its date argument. *)
Definition listingIndex : Page :=
  <[lit "subpages" := VRefs [0%nat]]> (Sample.blogIndex 5).

Definition listedStore : list Page :=
  [Sample.post "first.md" 1; listingIndex].

Definition listedStore1 : list Page :=
  [ <[lit "date" := VNull]> (Sample.post "first.md" 1);
    <[lit "date" := VNull]> listingIndex ].

(** The sample collaborators with a [dateFormat] that throws on every
    date. *)
Definition throwingDates : Collaborators := {|
  commonmark_render := @commonmark_render Sample.collaborators;
  frontMatter_parse := @frontMatter_parse Sample.collaborators;
  slug := @slug Sample.collaborators;
  normalize := @normalize Sample.collaborators;
  path_extname := @path_extname Sample.collaborators;
  path_basename := @path_basename Sample.collaborators;
  path_dirname := @path_dirname Sample.collaborators;
  path_join := @path_join Sample.collaborators;
  path_relative := @path_relative Sample.collaborators;
  globule_find := @globule_find Sample.collaborators;
  new_Date := @new_Date Sample.collaborators;
  dateFormat := λ _ _, None;
  pug_render := @pug_render Sample.collaborators;
  script_dirname := @script_dirname Sample.collaborators;
  toISOString := @toISOString Sample.collaborators;
  ToString_object := @ToString_object Sample.collaborators;
  toInteger_other := @toInteger_other Sample.collaborators;
  Date_parse_string := @Date_parse_string Sample.collaborators;
  ToNumber_string := @ToNumber_string Sample.collaborators;
  lstat_isDirectory := @lstat_isDirectory Sample.collaborators;
  JSON_stringify := @JSON_stringify Sample.collaborators;
  JSON_parse := @JSON_parse Sample.collaborators
|}.

End Sample2.
(** * Properties

    ** The escaping loop *)

Section Escaping.
Local Open Scope N_scope.

Lemma convertUnicode_loop_spec fuel str i result :
  (length str - i <= fuel)%nat →
  convertUnicode_loop fuel str i result
  = result ++ concat (map escape_unit (drop i str)).
Proof.
  revert i result. induction fuel as [|fuel IH]; intros i result Hfuel.
  - simpl. rewrite drop_ge by lia. simpl. by rewrite app_nil_r.
  - cbn [convertUnicode_loop]. case_decide as Hi.
    + unfold charCodeAt. destruct (lookup_lt_is_Some_2 str i Hi) as [c Hc].
      rewrite Hc. rewrite (drop_S _ _ _ Hc). cbn [map concat].
      unfold escape_unit at 1.
      generalize (lit "&#" ++ number_toString c ++ lit ";"). intros e.
      destruct (c <=? 127); rewrite IH by lia; by rewrite <- app_assoc.
    + rewrite drop_ge by lia. simpl. by rewrite app_nil_r.
Qed.

Lemma convertUnicodeCharsToHtml_concat str :
  convertUnicodeCharsToHtml str = concat (map escape_unit str).
Proof.
  unfold convertUnicodeCharsToHtml. case_decide as Hlen.
  - by destruct str.
  - rewrite convertUnicode_loop_spec by lia. by rewrite drop_0.
Qed.

Lemma uint_chars_ascii d : Forall is_ascii (uint_chars d).
Proof.
  induction d; simpl; constructor; try done; unfold is_ascii; lia.
Qed.

Lemma escape_unit_ascii c : Forall is_ascii (escape_unit c).
Proof.
  unfold escape_unit. destruct (c <=? 127) eqn:Hc.
  - constructor; [|constructor]. unfold is_ascii. by apply N.leb_le.
  - apply Forall_app. split.
    + vm_compute lit. repeat constructor; unfold is_ascii; lia.
    + apply Forall_app. split; [apply uint_chars_ascii|].
      vm_compute lit. repeat constructor; unfold is_ascii; lia.
Qed.

Lemma convertUnicodeCharsToHtml_ascii str :
  Forall is_ascii (convertUnicodeCharsToHtml str).
Proof.
  rewrite convertUnicodeCharsToHtml_concat.
  induction str as [|c str IH]; simpl; [constructor|].
  apply Forall_app. split; [apply escape_unit_ascii | exact IH].
Qed.

Lemma convertUnicodeCharsToHtml_id_on_ascii str :
  Forall is_ascii str → convertUnicodeCharsToHtml str = str.
Proof.
  rewrite convertUnicodeCharsToHtml_concat.
  induction 1 as [|c str Hc _ IH]; simpl; [done|].
  unfold escape_unit at 1. unfold is_ascii in Hc.
  apply N.leb_le in Hc. rewrite Hc. simpl. by rewrite IH.
Qed.

(** ** The escaping function: claims *)

Lemma codePoints_no_high_surrogate (s : jsstring) :
  Forall (λ c, is_high_surrogate c = false) s → codePoints s = s.
Proof.
  induction 1 as [|c s Hc _ IH]; [done|].
  simpl. rewrite Hc. simpl. destruct s as [|lo s]; [done|]. by rewrite IH.
Qed.

(** C6 (amended).  For every string, [convertUnicodeCharsToHtml] replaces
    every UTF-16 code unit above 127 by the numeric character reference of
    that code unit and leaves every code unit up to 127 as it is.  Hence
    in a string without surrogate pairs every character above code point
    127 becomes its numeric character reference (U+00E9 becomes [&#233;]),
    and a character outside the BMP becomes the two references of its
    surrogates. *)
Theorem convertUnicodeCharsToHtml_escapes_code_units :
  (∀ str : jsstring,
     convertUnicodeCharsToHtml str
     = concat (map (λ c, if c <=? 127 then [c] else characterReference c)
                   str))
  ∧ (∀ (pre post : jsstring) (c : N),
       convertUnicodeCharsToHtml (pre ++ c :: post)
       = convertUnicodeCharsToHtml pre
         ++ (if c <=? 127 then [c] else characterReference c)
         ++ convertUnicodeCharsToHtml post)
  ∧ (∀ str : jsstring,
       Forall (λ c, is_high_surrogate c = false) str →
       convertUnicodeCharsToHtml str = escapeCharacters str)
  ∧ (∀ hi lo : N,
       is_high_surrogate hi = true → is_low_surrogate lo = true →
       convertUnicodeCharsToHtml [hi; lo]
       = characterReference hi ++ characterReference lo)
  ∧ convertUnicodeCharsToHtml [233] = lit "&#233;"
  ∧ convertUnicodeCharsToHtml (lit "caf" ++ [233] ++ lit "!")
    = lit "caf&#233;!".
Proof.
  split; [exact convertUnicodeCharsToHtml_concat|].
  split.
  { intros pre post c. rewrite !convertUnicodeCharsToHtml_concat.
    rewrite map_app, concat_app. reflexivity. }
  split.
  { intros str Hstr. unfold escapeCharacters.
    rewrite (codePoints_no_high_surrogate str Hstr).
    apply convertUnicodeCharsToHtml_concat. }
  split; [|split; reflexivity].
  intros hi lo Hhi Hlo. rewrite convertUnicodeCharsToHtml_concat.
  unfold is_high_surrogate in Hhi. apply andb_true_iff in Hhi as [Hhi _].
  unfold is_low_surrogate in Hlo. apply andb_true_iff in Hlo as [Hlo _].
  apply N.leb_le in Hhi, Hlo.
  cbn [map concat]. unfold escape_unit.
  rewrite (proj2 (N.leb_gt hi 127)) by lia.
  rewrite (proj2 (N.leb_gt lo 127)) by lia.
  unfold characterReference. by rewrite app_nil_r.
Qed.

(** C6 (as stated, refuted).  U+1F600 is the surrogate pair D83D DE00; its
    numeric character reference is [&#128512;], and the escaping function
    gives [&#55357;&#56832;]. *)
Lemma astral_character_escaped_by_surrogates :
  codePoints [55357; 56832] = [128512]
  ∧ escapeCharacters [55357; 56832] = lit "&#128512;"
  ∧ convertUnicodeCharsToHtml [55357; 56832] = lit "&#55357;&#56832;"
  ∧ convertUnicodeCharsToHtml [55357; 56832]
    ≠ escapeCharacters [55357; 56832].
Proof.
  split; [reflexivity|]. split; [reflexivity|]. split; [reflexivity|].
  intros E. vm_compute in E. discriminate E.
Qed.

(** C10. The escaping function is idempotent: its output has only ASCII
    characters, it is the identity on all-ASCII strings, and so applying it
    twice is applying it once. *)
Theorem convertUnicodeCharsToHtml_idempotent :
  (∀ s, Forall is_ascii (convertUnicodeCharsToHtml s))
  ∧ (∀ s, Forall is_ascii s → convertUnicodeCharsToHtml s = s)
  ∧ (∀ s, convertUnicodeCharsToHtml (convertUnicodeCharsToHtml s)
          = convertUnicodeCharsToHtml s).
Proof.
  split; [exact convertUnicodeCharsToHtml_ascii|].
  split; [exact convertUnicodeCharsToHtml_id_on_ascii|].
  intros s. apply convertUnicodeCharsToHtml_id_on_ascii,
    convertUnicodeCharsToHtml_ascii.
Qed.

End Escaping.

(** ** Reading properties *)

Ltac key_ne := let E := fresh in intros E; vm_compute in E; discriminate E.

Lemma get_insert_eq (p : Page) (key : jsstring) (v : JSVal) : get (<[key := v]> p) key = v.
Proof. unfold get. by rewrite lookup_insert_eq. Qed.

Lemma get_insert_ne (p : Page) (key key' : jsstring) (v : JSVal) :
  key ≠ key' → get (<[key := v]> p) key' = get p key'.
Proof. intros Hne. unfold get. by rewrite lookup_insert_ne. Qed.

Lemma get_lookup (p : Page) (key : jsstring) (v : JSVal) : p !! key = Some v → get p key = v.
Proof. intros Hp. unfold get. by rewrite Hp. Qed.

(** ** The staleness test and the resolver *)

Section Resolver.
Context {collab : Collaborators}.

Lemma readPage_unfold site fs cached file :
  readPage site fs cached file
  = '(page, skipped) ← refreshPage fs file (startPage cached file);
    page ← resolvePage site page; Some (page, skipped).
Proof.
  unfold readPage, resolvePage.
  destruct (refreshPage fs file (startPage cached file)) as [[page skipped]|];
    [|done].
  simpl. destruct (deriveSlug (normalizeDate page)) as [p1|]; [|done].
  simpl. destruct (reconvertContent p1) as [p2|]; [|done].
  simpl. destruct (deriveUrl site p2) as [p3|]; [|done].
  simpl. by destruct (deriveRelSiteUrl (deriveTarget p3)).
Qed.

(** What the staleness test compares: the file's modification time cut to
    the second, and [Date.parse] of the recorded [modified]. *)
Lemma isStale_spec (ms : Z) (page : Page) :
  isStale (VDate ms) page = true
  ↔ Date_parse (get page (lit "modified")) ≠ Some (1000 * (ms `div` 1000)).
Proof.
  unfold isStale, num_ne, num_eq. simpl.
  destruct (Date_parse (get page (lit "modified"))) as [m|]; simpl.
  - rewrite negb_true_iff, bool_decide_eq_false. split; intros Hm E.
    + apply Hm. by injection E.
    + apply Hm. by rewrite E.
  - split; [discriminate | done].
Qed.

Lemma refreshPage_cases fs file page f :
  entries fs !! file = Some f →
  refreshPage fs file page
  = if isStale (VDate (mtime f)) page then
      match frontMatter_parse (data f) with
      | Some (meta, body) =>
          Some (<[lit "modified" := VDate (mtime f)]>
                  (<[lit "content" := VStr (convertCommonmarkToHtml body)]>
                     (lodash_assign page (<[lit "content" := VStr body]> meta))),
                false)
      | None => None
      end
    else Some (page, true).
Proof.
  intros Hf. unfold refreshPage, getModifiedDate, loadFront. rewrite Hf. simpl.
  destruct (isStale (VDate (mtime f)) page); [|done].
  destruct (frontMatter_parse (data f)) as [[meta body]|]; [|done]. simpl.
  unfold convertContent, lodash_assign, get at 1.
  rewrite lookup_union. rewrite lookup_insert_eq.
  by destruct (page !! lit "content").
Qed.

End Resolver.

Ltac simpl_get :=
  repeat (rewrite get_insert_eq || rewrite get_insert_ne by key_ne).

Lemma agree_off_refl (key : jsstring) (p : Page) : agree_off key p p.
Proof. by intros k _. Qed.

Lemma agree_off_insert (key : jsstring) (v : JSVal) (p : Page) : agree_off key p (<[key := v]> p).
Proof. intros k Hk. by apply get_insert_ne. Qed.

Section ResolverSteps.
Context {collab : Collaborators}.

Lemma normalizeDate_agree (p : Page) :
  agree_off (lit "date") p (normalizeDate p).
Proof.
  unfold normalizeDate. destruct (truthy _);
    [apply agree_off_insert | apply agree_off_refl].
Qed.

Lemma deriveSlug_spec (p : Page) (filename : jsstring) :
  get p (lit "filename") = VStr filename →
  ∃ p', deriveSlug p = Some p'
        ∧ agree_off (lit "slug") p p'
        ∧ get p' (lit "slug")
          = (if truthy (get p (lit "slug")) then get p (lit "slug")
             else VStr (derivedSlug filename)).
Proof.
  intros Hf. unfold deriveSlug. destruct (truthy (get p (lit "slug"))); simpl.
  - exists p. split; [done|]. split; [apply agree_off_refl | done].
  - rewrite Hf. simpl. eexists. split; [done|].
    split; [apply agree_off_insert | by rewrite get_insert_eq].
Qed.

Lemma reconvertContent_spec (p : Page) (c : jsstring) :
  get p (lit "content") = VStr c →
  reconvertContent p
  = Some (<[lit "content" := VStr (convertCommonmarkToHtml c)]> p).
Proof. intros Hc. unfold reconvertContent, convertContent. by rewrite Hc. Qed.

Lemma deriveUrl_spec (site : Site) (p : Page) (filename u : jsstring) :
  get p (lit "filename") = VStr filename →
  get p (lit "url") = VStr u →
  ∃ p' u', deriveUrl site p = Some p'
           ∧ agree_off (lit "url") p p'
           ∧ get p' (lit "url") = VStr u'.
Proof.
  intros Hf Hu. unfold deriveUrl. destruct (truthy (get p (lit "url"))); simpl.
  - exists p, u. split; [done|]. split; [apply agree_off_refl | done].
  - rewrite Hf. simpl. eexists _, _. split; [done|].
    split; [apply agree_off_insert | by rewrite get_insert_eq].
Qed.

Lemma deriveTarget_spec (p : Page) (u t : jsstring) :
  get p (lit "url") = VStr u →
  get p (lit "target") = VStr t →
  agree_off (lit "target") p (deriveTarget p)
  ∧ ∃ t', get (deriveTarget p) (lit "target") = VStr t'.
Proof.
  intros Hu Ht. unfold deriveTarget.
  destruct (truthy (get p (lit "target"))); simpl.
  - split; [apply agree_off_refl | by exists t].
  - split; [apply agree_off_insert|]. exists u. by rewrite get_insert_eq.
Qed.

Lemma deriveRelSiteUrl_spec (p : Page) (t : jsstring) :
  get p (lit "target") = VStr t →
  ∃ p', deriveRelSiteUrl p = Some p' ∧ agree_off (lit "relSiteUrl") p p'.
Proof.
  intros Ht. unfold deriveRelSiteUrl. rewrite Ht. simpl.
  eexists. split; [done | apply agree_off_insert].
Qed.

Lemma resolvePage_spec (site : Site) (p : Page) (filename c u t : jsstring) :
  get p (lit "filename") = VStr filename →
  get p (lit "content") = VStr c →
  get p (lit "url") = VStr u →
  get p (lit "target") = VStr t →
  ∃ p', resolvePage site p = Some p'
        ∧ get p' (lit "content") = VStr (convertCommonmarkToHtml c)
        ∧ get p' (lit "slug")
          = (if truthy (get p (lit "slug")) then get p (lit "slug")
             else VStr (derivedSlug filename))
        ∧ get p' (lit "filename") = VStr filename.
Proof.
  intros Hf Hc Hu Ht. unfold resolvePage.
  pose proof (normalizeDate_agree p) as Hd.
  destruct (deriveSlug_spec (normalizeDate p) filename) as (p1 & -> & A1 & S1).
  { rewrite Hd by key_ne. done. }
  rewrite (Hd (lit "slug")) in S1 by key_ne. simpl.
  rewrite (reconvertContent_spec p1 c)
    by (rewrite A1 by key_ne; rewrite Hd by key_ne; done).
  simpl. set (p2 := <[lit "content" := _]> p1).
  destruct (deriveUrl_spec site p2 filename u) as (p3 & u' & -> & A3 & U3).
  { unfold p2. simpl_get. rewrite A1 by key_ne. by rewrite Hd by key_ne. }
  { unfold p2. simpl_get. rewrite A1 by key_ne. by rewrite Hd by key_ne. }
  simpl. destruct (deriveTarget_spec p3 u' t) as (A4 & t' & T4); [done| |].
  { rewrite A3 by key_ne. unfold p2. simpl_get. rewrite A1 by key_ne.
    by rewrite Hd by key_ne. }
  destruct (deriveRelSiteUrl_spec _ _ T4) as (p5 & -> & A5).
  exists p5. split; [done|].
  rewrite !A5 by key_ne. rewrite !A4 by key_ne. rewrite !A3 by key_ne.
  unfold p2. simpl_get. rewrite (A1 (lit "filename")) by key_ne.
  rewrite (Hd (lit "filename")) by key_ne. by rewrite S1.
Qed.

End ResolverSteps.

(** ** Records with well-formed paths and text *)


Lemma get_assign_str (p r : Page) (key : jsstring) :
  str_or_absent r key → (∃ s, get p key = VStr s) →
  ∃ s, get (lodash_assign p r) key = VStr s.
Proof.
  intros [Hr|[s Hr]] [s' Hp]; unfold lodash_assign, get.
  - rewrite (lookup_union_r _ _ _ Hr). by exists s'.
  - rewrite (lookup_union_Some_l _ _ _ _ Hr). by exists s.
Qed.

Lemma texty_assign (p r : Page) :
  texty p → plain_record r → texty (lodash_assign p r).
Proof.
  intros (f & c & u & t & Hf & Hc & Hu & Ht) (Rf & Rc & Ru & Rt).
  destruct (get_assign_str p r _ Rf (ex_intro _ f Hf)) as [f' Hf'].
  destruct (get_assign_str p r _ Rc (ex_intro _ c Hc)) as [c' Hc'].
  destruct (get_assign_str p r _ Ru (ex_intro _ u Hu)) as [u' Hu'].
  destruct (get_assign_str p r _ Rt (ex_intro _ t Ht)) as [t' Ht'].
  by exists f', c', u', t'.
Qed.

Lemma plain_record_empty : plain_record ∅.
Proof. repeat split; by left. Qed.

Lemma plain_record_content (meta : Page) (body : jsstring) :
  plain_record meta → plain_record (<[lit "content" := VStr body]> meta).
Proof.
  intros (Rf & Rc & Ru & Rt). unfold plain_record, str_or_absent.
  rewrite lookup_insert_eq. rewrite !lookup_insert_ne by key_ne.
  repeat split; try done. right. by exists body.
Qed.

Lemma get_assign_insert_ne (p r : Page) (key key' : jsstring) (v : JSVal) :
  key ≠ key' →
  get (lodash_assign (<[key := v]> p) r) key' = get (lodash_assign p r) key'.
Proof.
  intros Hne. unfold get, lodash_assign.
  by rewrite !lookup_union, lookup_insert_ne.
Qed.

Lemma texty_startPage (cached : gmap jsstring Page) (file : jsstring) :
  (∀ c, cached !! file = Some c → plain_record c) →
  texty (startPage cached file)
  ∧ get (startPage cached file) (lit "filename") = VStr file.
Proof.
  intros Hc. unfold startPage.
  assert (texty (<[lit "filename" := VStr file]> defaultPage)) as Hd.
  { exists file, [], [], [].
    rewrite get_insert_eq. rewrite !get_insert_ne by key_ne.
    split; [reflexivity | split; [reflexivity | split; reflexivity]]. }
  split; [|by rewrite get_insert_eq].
  destruct (cached !! file) as [c|]; [|done].
  destruct (texty_assign _ c Hd (Hc c eq_refl))
    as (f' & c' & u' & t' & _ & Hc' & Hu' & Ht').
  rewrite get_assign_insert_ne in Hc', Hu', Ht' by key_ne.
  exists file, c', u', t'.
  rewrite get_insert_eq. by rewrite !get_insert_ne by key_ne.
Qed.

Section ResolverRun.
Context {collab : Collaborators}.

(** A run of [readPage] on a source that exists and parses: the page after
    the staleness test, the page it returns, and how they are related. *)
Lemma readPage_run (site : Site) (fs : FS) (cached : gmap jsstring Page)
    (file : jsstring) (f : File) (meta : Page) (body : jsstring) :
  entries fs !! file = Some f →
  frontMatter_parse (data f) = Some (meta, body) →
  plain_record meta →
  (∀ c, cached !! file = Some c → plain_record c) →
  ∃ (mid page' : Page) (skipped : bool) (filename c : jsstring),
    refreshPage fs file (startPage cached file) = Some (mid, skipped)
    ∧ readPage site fs cached file = Some (page', skipped)
    ∧ get mid (lit "filename") = VStr filename
    ∧ get mid (lit "content") = VStr c
    ∧ get page' (lit "content") = VStr (convertCommonmarkToHtml c)
    ∧ get page' (lit "slug")
      = (if truthy (get mid (lit "slug")) then get mid (lit "slug")
         else VStr (derivedSlug filename))
    ∧ skipped = negb (isStale (VDate (mtime f)) (startPage cached file))
    ∧ (skipped = true → mid = startPage cached file ∧ filename = file)
    ∧ (skipped = false →
         c = convertCommonmarkToHtml body
         ∧ get mid (lit "modified") = VDate (mtime f)
         ∧ (meta !! lit "filename" = None → filename = file)).
Proof.
  intros Hf Hparse Hmeta Hcached.
  destruct (texty_startPage cached file Hcached) as [Hstart Hfile].
  rewrite readPage_unfold, (refreshPage_cases fs file _ f Hf), Hparse.
  destruct (isStale (VDate (mtime f)) (startPage cached file)) eqn:Hstale.
  - set (front := <[lit "content" := VStr body]> meta).
    pose proof (texty_assign _ front Hstart
                  (plain_record_content meta body Hmeta))
      as (fn & c0 & u & t & Hfn & Hc0 & Hu & Ht).
    set (mid := <[lit "modified" := _]> _).
    assert (get mid (lit "filename") = VStr fn) as Mf
      by (unfold mid; by simpl_get).
    assert (get mid (lit "content") = VStr (convertCommonmarkToHtml body))
      as Mc by (unfold mid; by simpl_get).
    assert (get mid (lit "url") = VStr u) as Mu by (unfold mid; by simpl_get).
    assert (get mid (lit "target") = VStr t) as Mt
      by (unfold mid; by simpl_get).
    destruct (resolvePage_spec site mid _ _ _ _ Mf Mc Mu Mt)
      as (p' & Hres & Pc & Ps & _).
    exists mid, p', false, fn, (convertCommonmarkToHtml body).
    simpl. rewrite Hres. simpl.
    repeat split; try done.
    + unfold mid. by simpl_get.
    + intros Hnone. unfold lodash_assign, get in Hfn.
      rewrite lookup_union_r in Hfn
        by (unfold front; by rewrite lookup_insert_ne by key_ne).
      fold (get (startPage cached file) (lit "filename")) in Hfn.
      rewrite Hfile in Hfn. by injection Hfn.
  - destruct Hstart as (fn & c0 & u & t & Hfn & Hc0 & Hu & Ht).
    destruct (resolvePage_spec site _ _ _ _ _ Hfn Hc0 Hu Ht)
      as (p' & Hres & Pc & Ps & _).
    exists (startPage cached file), p', true, fn, c0.
    simpl. rewrite Hres. simpl.
    repeat split; try done. rewrite Hfile in Hfn. by injection Hfn.
Qed.

(** C4. For every source that the resolver processes, the markup converter
    is applied to the page's [content] once more after the staleness test,
    whatever the test decided: the content the page ends with is the
    conversion of the content it had after the test.  For a skipped page
    that is the cached content, already HTML; for a re-parsed page it is the
    body, already converted once. *)
Theorem readPage_reconverts_content (site : Site) (fs : FS)
    (cached : gmap jsstring Page) (file : jsstring) (f : File) (meta : Page)
    (body : jsstring) :
  entries fs !! file = Some f →
  frontMatter_parse (data f) = Some (meta, body) →
  plain_record meta →
  (∀ c, cached !! file = Some c → plain_record c) →
  ∃ (mid page' : Page) (skipped : bool) (c : jsstring),
    refreshPage fs file (startPage cached file) = Some (mid, skipped)
    ∧ readPage site fs cached file = Some (page', skipped)
    ∧ get mid (lit "content") = VStr c
    ∧ get page' (lit "content") = VStr (convertCommonmarkToHtml c)
    ∧ (skipped = true →
         get (startPage cached file) (lit "content") = VStr c)
    ∧ (skipped = false → c = convertCommonmarkToHtml body).
Proof.
  intros Hf Hparse Hmeta Hcached.
  destruct (readPage_run site fs cached file f meta body Hf Hparse Hmeta
              Hcached)
    as (mid & page' & skipped & fn & c & Hr & Hp & _ & Hc & Hc' & _ & _
        & Hskip & Hnew).
  exists mid, page', skipped, c.
  split; [done|]. split; [done|]. split; [done|]. split; [done|]. split.
  - intros Hs. destruct (Hskip Hs) as [<- _]. done.
  - intros Hs. by destruct (Hnew Hs).
Qed.

Lemma stripExtOfPathname_stem (filename stem : jsstring) :
  filename = stem ++ path_extname filename →
  stripExtOfPathname filename = stem.
Proof.
  intros Hstem. unfold stripExtOfPathname.
  set (ext := path_extname filename) in *.
  rewrite Hstem at 2. rewrite Hstem at 1. rewrite length_app.
  replace (length stem + length ext - length ext)%nat with (length stem)
    by lia.
  by rewrite take_app_length.
Qed.

(** X23. A page that has a truthy slug after the cache overlay and the
    front-matter parse keeps it; a page that has none gets
    [slug(normalize(basename(stem)))], where [stem] is the page's file name
    without the extension [path.extname] reports.  The file name is the
    source's own unless the front matter sets [filename]. *)
Theorem readPage_slug_from_filename (site : Site) (fs : FS)
    (cached : gmap jsstring Page) (file : jsstring) (f : File) (meta : Page)
    (body : jsstring) :
  entries fs !! file = Some f →
  frontMatter_parse (data f) = Some (meta, body) →
  plain_record meta →
  (∀ c, cached !! file = Some c → plain_record c) →
  ∃ (mid page' : Page) (skipped : bool) (filename : jsstring),
    refreshPage fs file (startPage cached file) = Some (mid, skipped)
    ∧ readPage site fs cached file = Some (page', skipped)
    ∧ get mid (lit "filename") = VStr filename
    ∧ (meta !! lit "filename" = None → filename = file)
    ∧ (truthy (get mid (lit "slug")) = true →
       get page' (lit "slug") = get mid (lit "slug"))
    ∧ (truthy (get mid (lit "slug")) = false →
       ∀ stem, filename = stem ++ path_extname filename →
               get page' (lit "slug")
               = VStr (slug (normalize (path_basename stem)))).
Proof.
  intros Hf Hparse Hmeta Hcached.
  destruct (readPage_run site fs cached file f meta body Hf Hparse Hmeta
              Hcached)
    as (mid & page' & skipped & fn & c & Hr & Hp & Hfn & _ & _ & Hs & _
        & Hskip & Hnew).
  exists mid, page', skipped, fn.
  split; [done|]. split; [done|]. split; [done|]. split; [|split].
  - intros Hnone. destruct skipped.
    + by destruct (Hskip eq_refl).
    + destruct (Hnew eq_refl) as (_ & _ & Hfile). by apply Hfile.
  - intros Hyes. by rewrite Hyes in Hs.
  - intros Hno stem Hstem. rewrite Hno in Hs. rewrite Hs.
    unfold derivedSlug. by rewrite (stripExtOfPathname_stem fn stem Hstem).
Qed.

(** [readPages] resolves the files in order, one page for each. *)
Lemma readPages_loop_pages (site : Site) (fs : FS)
    (cached : gmap jsstring Page) (todo : list jsstring)
    (done_pages ps : list Page) (nSkip k : nat) :
  readPages_loop site fs cached todo done_pages nSkip = Some (ps, k) →
  ∃ new_pages,
    ps = done_pages ++ new_pages
    ∧ Forall2 (λ file page,
                 ∃ skipped, readPage site fs cached file = Some (page, skipped))
              todo new_pages.
Proof.
  revert done_pages nSkip. induction todo as [|file todo IH];
    intros done_pages nSkip Hloop; simpl in Hloop.
  - injection Hloop as <- _. exists []. by rewrite app_nil_r.
  - destruct (readPage site fs cached file) as [[page skipped]|] eqn:Hpage;
      [|done].
    simpl in Hloop. destruct (IH _ _ Hloop) as (rest & -> & Hrest).
    exists (page :: rest). rewrite <- app_assoc. split; [done|].
    constructor; [by exists skipped | done].
Qed.

End ResolverRun.

(** ** Runs on the sample site *)

Section ResolverSample.
#[local] Existing Instance Sample.collaborators.

Lemma readPage_reconverts_content_witness :
  ∃ (mid page' : Page) (skipped : bool) (c : jsstring),
    refreshPage (collab := Sample.collaborators) Sample.fs (lit "a.md")
      (startPage ∅ (lit "a.md")) = Some (mid, skipped)
    ∧ readPage Sample.site Sample.fs ∅ (lit "a.md") = Some (page', skipped)
    ∧ get mid (lit "content") = VStr c
    ∧ get page' (lit "content") = VStr (convertCommonmarkToHtml c)
    ∧ (skipped = true → get (startPage ∅ (lit "a.md")) (lit "content") = VStr c)
    ∧ (skipped = false → c = convertCommonmarkToHtml (lit "hi")).
Proof.
  apply (readPage_reconverts_content (collab := Sample.collaborators)
           Sample.site Sample.fs ∅ (lit "a.md")
           (mkFile 1577836800500 (lit "hi")) ∅ (lit "hi")).
  - vm_compute. reflexivity.
  - reflexivity.
  - repeat split; left; reflexivity.
  - intros c Hc. vm_compute in Hc. discriminate Hc.
Defined.

Lemma readPage_slug_from_filename_witness :
  ∃ (mid page' : Page) (skipped : bool) (filename : jsstring),
    refreshPage (collab := Sample.collaborators) Sample.fs (lit "a.md")
      (startPage ∅ (lit "a.md")) = Some (mid, skipped)
    ∧ readPage Sample.site Sample.fs ∅ (lit "a.md") = Some (page', skipped)
    ∧ get mid (lit "filename") = VStr filename
    ∧ ((∅ : Page) !! lit "filename" = None → filename = lit "a.md")
    ∧ (truthy (get mid (lit "slug")) = true →
       get page' (lit "slug") = get mid (lit "slug"))
    ∧ (truthy (get mid (lit "slug")) = false →
       ∀ stem, filename = stem ++ path_extname filename →
               get page' (lit "slug")
               = VStr (slug (normalize (path_basename stem)))).
Proof.
  apply (readPage_slug_from_filename (collab := Sample.collaborators)
           Sample.site Sample.fs ∅ (lit "a.md")
           (mkFile 1577836800500 (lit "hi")) ∅ (lit "hi")).
  - vm_compute. reflexivity.
  - reflexivity.
  - repeat split; left; reflexivity.
  - intros c Hc. vm_compute in Hc. discriminate Hc.
Defined.

End ResolverSample.

(** ** The staleness test on real time stamps *)

(** C3 (the code departs from the claim).  [readPages] compares
    [Date.parse(modified)], where [modified] is a [Date] object and so is
    read to the second, with [Date.parse(page.modified)], where the cached
    value is the ISO string of the page cache and keeps its milliseconds.
    A source whose modification time equals the cached one is re-parsed
    unless that time falls on a whole second, and a source modified within
    the second the cache recorded is skipped.  Here: [a.md], cached with
    [modified] 2020-01-01T00:00:00.500Z and unchanged since, is re-parsed;
    cached with 00:00:00.000Z and modified at 00:00:00.400Z, it is
    skipped and the cached content is kept. *)
Theorem readPage_staleness_to_the_second :
  (∀ (collab : Collaborators) (p : Page) (current recorded : Z),
     isStale (VDate current) (<[lit "modified" := VIso recorded]> p)
     = negb (bool_decide (1000 * (current `div` 1000) = recorded)))
  ∧ (λ r, (r.2, get r.1 (lit "content")))
      <$> readPage (collab := Sample.collaborators) Sample.site Sample.fs
            (Sample.cacheOf
               (Sample.cachedRecord (VIso 1577836800500) VUndefined))
            (lit "a.md")
    = Some (false, VStr (lit "<p><p>hi</p></p>"))
  ∧ (λ r, (r.2, get r.1 (lit "content")))
      <$> readPage (collab := Sample.collaborators) Sample.site
            (mkFS {[ lit "a.md" := mkFile 1577836800400 (lit "hi") ]} 0)
            (Sample.cacheOf
               (Sample.cachedRecord (VIso 1577836800000) VUndefined))
            (lit "a.md")
    = Some (true, VStr (lit "<p><p>old</p></p>")).
Proof.
  split; [|split; vm_compute; reflexivity].
  intros collab p current recorded.
  unfold isStale, num_ne, num_eq. rewrite get_insert_eq. reflexivity.
Qed.

(** ** The writer *)

Section Writer.
Context {collab : Collaborators}.

(** What the skip test of [writePages] compares: the output's modification
    time cut to the second, [Date.parse] of the recorded [writeTime] and
    [Date.parse] of [modified]. *)
Lemma skipWrite_spec (fs : FS) (outHtml : jsstring) (page : Page) :
  skipWrite fs outHtml page = true
  ↔ ∃ (f : File) (m : Z),
      entries fs !! outHtml = Some f
      ∧ Date_parse (get page (lit "writeTime"))
        = Some (1000 * (mtime f `div` 1000))
      ∧ Date_parse (get page (lit "modified")) = Some m
      ∧ m ≤ 1000 * (mtime f `div` 1000).
Proof.
  unfold skipWrite, isFile, getModifiedDate.
  destruct (entries fs !! outHtml) as [f|] eqn:Hf; simpl.
  - destruct (Date_parse (get page (lit "writeTime"))) as [w|];
      [|split; [discriminate | by intros (? & ? & ? & ? & _)]].
    destruct (decide (1000 * (mtime f `div` 1000) = w)) as [<-|Hw].
    + rewrite bool_decide_eq_true_2 by done.
      destruct (Date_parse (get page (lit "modified"))) as [m|];
        [|split; [discriminate | by intros (? & ? & ? & ? & ? & _)]].
      rewrite bool_decide_eq_true. split.
      * intros Hm. by exists f, m.
      * intros (f' & m' & E & _ & Em & Hm). by simplify_eq.
    + rewrite bool_decide_eq_false_2 by done.
      split; [discriminate|]. intros (f' & m' & E & Ew & _). by simplify_eq.
  - split; [discriminate | by intros (? & ? & ? & _)].
Qed.

(** [getTemplateDir] returns [null] exactly when none of the three
    directories has the template. *)
Lemma getTemplateDir_null (fs : FS) (site : Site) (page : Page)
    (filename name : jsstring) :
  get page (lit "filename") = VStr filename →
  get page (lit "template") = VStr name →
  getTemplateDir fs page site = Some None
  ↔ existsSync fs (path_join (path_dirname filename) name) = false
    ∧ existsSync fs (path_join (templateDir site) name) = false
    ∧ existsSync fs
        (path_join (path_join script_dirname (lit "defaults")) name) = false.
Proof.
  intros Hf Hn. unfold getTemplateDir, templateDirsOf. rewrite Hf, Hn. simpl.
  destruct (existsSync fs (path_join (path_dirname filename) name));
    [split; [discriminate | by intros [? _]]|].
  destruct (existsSync fs (path_join (templateDir site) name));
    [split; [discriminate | by intros (_ & ? & _)]|].
  destruct (existsSync fs _); [split; [discriminate | by intros (_ & _ & ?)]|].
  done.
Qed.

(** [writePages] formats dates and nothing else before the write: every
    page of the store keeps all its properties but [date]. *)
Lemma formatDates_agree (fmt : JSVal) (refs : list nat)
    (store store' : list Page) (j : nat) (p : Page) :
  formatDates fmt refs store = Some store' →
  store !! j = Some p →
  ∃ p', store' !! j = Some p' ∧ agree_off (lit "date") p p'.
Proof.
  revert store p. induction refs as [|r refs IH]; intros store p; simpl.
  - intros [= <-] Hj. exists p. split; [done | apply agree_off_refl].
  - destruct (store !! r) as [q|] eqn:Hr; [|done]. simpl.
    destruct (dateFormat _ _) as [d|]; [|done]. simpl.
    intros Hrest Hj. destruct (decide (r = j)) as [->|Hne].
    + assert (q = p) as -> by congruence.
      destruct (IH _ (<[lit "date" := d]> p) Hrest) as (p' & Hp' & Hagree).
      { apply list_lookup_insert_eq. by eapply lookup_lt_Some. }
      exists p'. split; [done|]. intros k Hk.
      rewrite (Hagree k Hk). by apply get_insert_ne.
    + apply (IH _ p Hrest). by rewrite list_lookup_insert_ne.
Qed.

Lemma prepareWrite_agree (site : Site) (store store1 : list Page) (i : nat)
    (page0 page : Page) (outHtml : jsstring) :
  store !! i = Some page0 →
  prepareWrite site store i = Some (store1, page, outHtml) →
  agree_off (lit "date") page0 page.
Proof.
  intros Hi. unfold prepareWrite. rewrite Hi. simpl.
  destruct (datedPages i _) as [[refs other]|]; [|done]. simpl.
  destruct (formatDates _ refs store) as [st|] eqn:Hfmt; [|done]. simpl.
  destruct (if other then _ else _); [|done]. simpl.
  destruct (formatDates_agree _ _ _ _ _ _ Hfmt Hi) as (p' & Hp' & Hagree).
  rewrite Hp'. simpl.
  destruct (as_string _); [|done]. simpl. by intros [= _ <- _].
Qed.

(** C7 (amended).  For every page whose template name matches no path in
    the three search locations, [getTemplateDir] returns [null] and the
    missing template raises no error of its own: the write step behaves as
    the same step without template lookup and rendering.  It throws, and
    aborts the run, exactly when the date formatting or the computation of
    the output path (lines 233-242) throws or, the write not being
    skipped, [page.content] is no string; it is skipped when the skip test
    holds; in every other case [page.content] is written as it is to the
    output path, the new modification time is recorded as [writeTime], and
    [writePages] goes on with the pages that follow. *)
Theorem writePage_missing_template (site : Site) (fs : FS)
    (store : list Page) (i : nat) (page0 : Page) (filename name : jsstring) :
  store !! i = Some page0 →
  get page0 (lit "filename") = VStr filename →
  get page0 (lit "template") = VStr name →
  existsSync fs (path_join (path_dirname filename) name) = false →
  existsSync fs (path_join (templateDir site) name) = false →
  existsSync fs
    (path_join (path_join script_dirname (lit "defaults")) name) = false →
  writePage site fs store i
  = match prepareWrite site store i with
    | None => None
    | Some (store1, page, outHtml) =>
        if skipWrite fs outHtml page then Some (store1, fs, Skipped)
        else
          match as_string (get page (lit "content")) with
          | None => None
          | Some text =>
              Some (<[i := <[lit "writeTime" := VDate (clock fs)]> page]>
                      store1,
                    writeFileSync fs outHtml text,
                    Written None outHtml text)
          end
    end
  ∧ ∀ (store1 : list Page) (page : Page) (outHtml : jsstring),
      prepareWrite site store i = Some (store1, page, outHtml) →
      getTemplateDir fs page site = Some None
      ∧ ∀ text : jsstring,
          skipWrite fs outHtml page = false →
          get page (lit "content") = VStr text →
          let fs' := writeFileSync fs outHtml text in
          let store' :=
            <[i := <[lit "writeTime" := VDate (clock fs)]> page]> store1 in
          writePage site fs store i
          = Some (store', fs', Written None outHtml text)
          ∧ entries fs' !! outHtml = Some (mkFile (clock fs) text)
          ∧ ∀ todo nSkip,
              writePages_loop site (i :: todo) fs store nSkip
              = writePages_loop site todo fs' store' nSkip.
Proof.
  intros Hi Hf Hn E1 E2 E3.
  assert (∀ store1 page outHtml,
            prepareWrite site store i = Some (store1, page, outHtml) →
            getTemplateDir fs page site = Some None) as Hnull.
  { intros store1 page outHtml Hprep.
    pose proof (prepareWrite_agree _ _ _ _ _ _ _ Hi Hprep) as Hagree.
    apply (getTemplateDir_null fs site page filename name); [| |done].
    - rewrite (Hagree (lit "filename")) by key_ne. exact Hf.
    - rewrite (Hagree (lit "template")) by key_ne. exact Hn. }
  assert (writePage site fs store i
          = match prepareWrite site store i with
            | None => None
            | Some (store1, page, outHtml) =>
                if skipWrite fs outHtml page then Some (store1, fs, Skipped)
                else
                  match as_string (get page (lit "content")) with
                  | None => None
                  | Some text =>
                      Some (<[i := <[lit "writeTime" := VDate (clock fs)]>
                                     page]> store1,
                            writeFileSync fs outHtml text,
                            Written None outHtml text)
                  end
            end) as Heq.
  { unfold writePage.
    destruct (prepareWrite site store i) as [[[store1 page] outHtml]|]
      eqn:Hprep; [|done].
    simpl. destruct (skipWrite fs outHtml page); [done|].
    rewrite (Hnull _ _ _ eq_refl). simpl. unfold renderPage. simpl.
    destruct (as_string (get page (lit "content"))) as [text|]; [|done].
    simpl. unfold getModifiedDate, writeFileSync. simpl.
    by rewrite lookup_insert_eq. }
  split; [exact Heq|].
  intros store1 page outHtml Hprep. split; [by eapply Hnull|].
  intros text Hskip Hc fs' store'.
  assert (writePage site fs store i
          = Some (store', fs', Written None outHtml text)) as Hw.
  { rewrite Heq, Hprep, Hskip, Hc. reflexivity. }
  split; [done|]. split.
  - unfold fs', writeFileSync. simpl. by rewrite lookup_insert_eq.
  - intros todo nSkip. simpl. by rewrite Hw.
Qed.

End Writer.

Section WriterSample.
#[local] Existing Instance Sample.collaborators.

Lemma writePage_missing_template_witness :
  let fs := Sample.fs in
  let page := Sample.untemplated in
  let fs' := writeFileSync fs (lit "./a.html") (lit "<p>old</p>") in
  let store' := <[0%nat := <[lit "writeTime" := VDate (clock fs)]> page]> [page] in
  getTemplateDir fs page Sample.site = Some None
  ∧ writePage Sample.site fs [page] 0
    = Some (store', fs', Written None (lit "./a.html") (lit "<p>old</p>"))
  ∧ entries fs' !! lit "./a.html" = Some (mkFile (clock fs) (lit "<p>old</p>"))
  ∧ ∀ todo nSkip,
      writePages_loop Sample.site (0%nat :: todo) fs [page] nSkip
      = writePages_loop Sample.site todo fs' store' nSkip.
Proof.
  intros fs page fs' store'.
  destruct (writePage_missing_template (collab := Sample.collaborators)
              Sample.site Sample.fs [Sample.untemplated] 0
              Sample.untemplated (lit "a.md") (lit "missing.pug"))
    as [_ Hrun].
  - reflexivity.
  - vm_cast_no_check (eq_refl (VStr (lit "a.md"))).
  - vm_cast_no_check (eq_refl (VStr (lit "missing.pug"))).
  - vm_cast_no_check (eq_refl false).
  - vm_cast_no_check (eq_refl false).
  - vm_cast_no_check (eq_refl false).
  - destruct (Hrun [Sample.untemplated] Sample.untemplated (lit "./a.html"))
      as [Hnull Hwrite].
    { vm_cast_no_check
        (eq_refl (Some ([Sample.untemplated], Sample.untemplated,
                        lit "./a.html"))). }
    split; [exact Hnull|].
    apply (Hwrite (lit "<p>old</p>")).
    + vm_cast_no_check (eq_refl false).
    + vm_cast_no_check (eq_refl (VStr (lit "<p>old</p>"))).
Defined.

(** C7 (as stated, refuted).  The sample page names the template
    [missing.pug], which is in none of the three directories; its write
    step does not fail: the content is written to [./a.html]. *)
Lemma missing_template_write_succeeds :
  let page := Sample.untemplated in
  getTemplateDir Sample.fs page Sample.site = Some None
  ∧ writePage Sample.site Sample.fs [page] 0 ≠ None
  ∧ (λ r, r.2) <$> writePage Sample.site Sample.fs [page] 0
    = Some (Written None (lit "./a.html") (lit "<p>old</p>")).
Proof.
  assert ((λ r, r.2) <$> writePage Sample.site Sample.fs [Sample.untemplated] 0
          = Some (Written None (lit "./a.html") (lit "<p>old</p>"))) as Hrun
    by (vm_compute; reflexivity).
  split; [vm_compute; reflexivity|]. split; [|exact Hrun].
  intros E. rewrite E in Hrun. discriminate Hrun.
Qed.

(** C5 (the code departs from the claim).  The skip test reads the
    output's modification time through [Date.parse] of a [Date] object, to
    the second, and the recorded [writeTime] from its ISO string, to the
    millisecond.  With the output on disk stamped exactly as recorded and
    the source older, the write is skipped only when the stamp falls on a
    whole second.  Here: [./a.html] written and recorded at
    2020-01-01T00:00:01.500Z, source modified at 00:00:00.000Z: the page is
    written again.  And with the output touched at 00:00:01.400Z against a
    recorded 00:00:01.000Z, the write is skipped. *)
Theorem writePage_skip_test_to_the_second :
  (∀ (collab : Collaborators) (fs : FS) (outHtml text : jsstring)
     (written modified : Z) (p : Page),
     skipWrite
       (mkFS (<[outHtml := mkFile written text]> (entries fs)) (clock fs))
       outHtml
       (<[lit "writeTime" := VIso written]>
          (<[lit "modified" := VIso modified]> p))
     = bool_decide (1000 * (written `div` 1000) = written)
       && bool_decide (modified ≤ 1000 * (written `div` 1000)))
  ∧ (λ r, r.2)
      <$> writePage Sample.site (Sample.output 1577836801500)
            (Sample.store (VIso 1577836800000) (VIso 1577836801500)) 0
    = Some (Written (Some (lit "/opt/embellij/defaults/default.pug"))
                    (lit "./a.html") (lit "<html><p>old</p></html>"))
  ∧ (λ r, r.2)
      <$> writePage Sample.site (Sample.output 1577836801400)
            (Sample.store (VIso 1577836800000) (VIso 1577836801000)) 0
    = Some Skipped.
Proof.
  split; [|split; vm_compute; reflexivity].
  intros collab fs outHtml text written modified p.
  unfold skipWrite, isFile, getModifiedDate. simpl.
  rewrite lookup_insert_eq. simpl.
  rewrite get_insert_eq. rewrite get_insert_ne by key_ne.
  rewrite get_insert_eq. simpl.
  by destruct (bool_decide (1000 * (written `div` 1000) = written)).
Qed.

End WriterSample.

(** ** The driver *)

Section Driver.
Context {collab : Collaborators}.

Lemma loadCachedPages_cachedPages (site site' : Site) (fs : FS) :
  loadCachedPages site fs = Some site' → cachedPages site' = cachedPages site.
Proof.
  unfold loadCachedPages. destruct (_ && _); [|by intros [= <-]].
  destruct (entries fs !! cachedPages site) as [f|]; [|done]. simpl.
  destruct (JSON_parse (data f)); [|done]. by intros [= <-].
Qed.

Lemma readPages_cachedPages (site site' : Site) (fs : FS) (n : nat) :
  readPages site fs = Some (site', n) → cachedPages site' = cachedPages site.
Proof.
  unfold readPages. destruct (readPages_loop _ _ _ _ _ _) as [[ps k]|]; [|done].
  simpl. intros [= <- _]. by destruct (negb _).
Qed.

Lemma writePages_cachedPages (site site' : Site) (fs fs' : FS) (n : nat) :
  writePages site fs = Some (site', fs', n) →
  cachedPages site' = cachedPages site.
Proof.
  unfold writePages. destruct (writePages_loop _ _ _ _ _) as [[[st f] k]|];
    [|done].
  simpl. by intros [= <- _ _].
Qed.

(** A record found in the dictionary of cached pages is one of the pages
    it was built from. *)
Lemma cachedPagesOf_elem (ps : list Page) (file : jsstring) (c : Page) :
  cachedPagesOf ps !! file = Some c → c ∈ ps.
Proof.
  unfold cachedPagesOf.
  assert (∀ (acc : gmap jsstring Page),
            foldl (λ cached page,
                     <[ToString (get page (lit "filename")) := page]> cached)
                  acc ps !! file = Some c →
            c ∈ ps ∨ acc !! file = Some c) as Hgen.
  { induction ps as [|p ps IH]; intros acc Hc; simpl in Hc; [by right|].
    destruct (IH _ Hc) as [Hin|Hacc].
    - left. by right.
    - destruct (decide (ToString (get p (lit "filename")) = file)) as [E|E].
      + rewrite E, lookup_insert_eq in Hacc. injection Hacc as <-.
        left. by left.
      + rewrite lookup_insert_ne in Hacc by done. by right. }
  intros Hc. destruct (Hgen ∅ Hc) as [Hin|Hempty]; [done|].
  by rewrite lookup_empty in Hempty.
Qed.

(** A page starts with no subpages when no cached record has any. *)
Lemma startPage_subpages (ps : list Page) (file : jsstring) :
  Forall (λ p : Page, p !! lit "subpages" = Some (VRefs [])) ps →
  get (startPage (cachedPagesOf ps) file) (lit "subpages") = VRefs [].
Proof.
  intros Hps. unfold startPage. rewrite get_insert_ne by key_ne.
  destruct (cachedPagesOf ps !! file) as [c|] eqn:Hc; [|reflexivity].
  apply cachedPagesOf_elem in Hc.
  rewrite Forall_forall in Hps. specialize (Hps c Hc).
  unfold get, lodash_assign. by rewrite (lookup_union_Some_l _ _ _ _ Hps).
Qed.

(** C8. Every run of [processSite] that saves a page cache writes, at the
    cache path, the serialization of page records whose [subpages] are all
    the empty list: line 291 clears the field of every page before line 292
    serializes them.  A later run that overlays these records on the default
    page restores nothing but the empty list. *)
Theorem processSite_cache_has_no_subpages (site site' : Site) (fs fs' : FS) :
  processSite site fs = Some (site', fs') →
  cachedPages site ≠ [] →
  ∃ f : File,
    entries fs' !! cachedPages site = Some f
    ∧ data f = JSON_stringify (pages site')
    ∧ Forall (λ p : Page, p !! lit "subpages" = Some (VRefs [])) (pages site')
    ∧ ∀ file,
        get (startPage (cachedPagesOf (pages site')) file) (lit "subpages")
        = VRefs [].
Proof.
  intros Hrun Hpath. unfold processSite in Hrun.
  destruct (loadCachedPages site fs) as [s1|] eqn:H1; [|done]. simpl in Hrun.
  destruct (readPages s1 fs) as [[s2 n2]|] eqn:H2; [|done]. simpl in Hrun.
  destruct (writePages (generateIndexableSubpages s2) fs)
    as [[[s4 fs4] n4]|] eqn:H4; [|done].
  simpl in Hrun. injection Hrun as Hsave.
  assert (cachedPages s4 = cachedPages site) as Hsame.
  { rewrite (writePages_cachedPages _ _ _ _ _ H4). simpl.
    rewrite (readPages_cachedPages _ _ _ _ H2).
    apply (loadCachedPages_cachedPages _ _ _ H1). }
  unfold saveCachedPages in Hsave. rewrite Hsame in Hsave.
  rewrite bool_decide_eq_false_2 in Hsave by done. simpl in Hsave.
  injection Hsave as <- <-. simpl.
  assert (Forall (λ p : Page, p !! lit "subpages" = Some (VRefs []))
            (map clearSubpages (pages s4))) as Hclear.
  { apply Forall_forall. intros p Hp. apply list_elem_of_fmap in Hp.
    destruct Hp as (q & -> & _). unfold clearSubpages.
    by rewrite lookup_insert_eq. }
  eexists. split; [by rewrite Hsame, lookup_insert_eq|].
  split; [done|]. split; [done|].
  intros file. by apply startPage_subpages.
Qed.

End Driver.

Section DriverSample.
#[local] Existing Instance Sample.collaborators.

Lemma processSite_cache_has_no_subpages_witness :
  ∃ (site' : Site) (fs' : FS),
    processSite (Sample.cachingSite VUndefined) Sample.cachedRun = Some (site', fs')
    ∧ ∃ f : File,
        entries fs' !! lit "cache.json" = Some f
        ∧ data f = JSON_stringify (pages site')
        ∧ Forall (λ p : Page, p !! lit "subpages" = Some (VRefs []))
                 (pages site')
        ∧ ∀ file,
            get (startPage (cachedPagesOf (pages site')) file)
                (lit "subpages")
            = VRefs [].
Proof.
  destruct (processSite (Sample.cachingSite VUndefined) Sample.cachedRun)
    as [[site' fs']|] eqn:Hrun.
  - exists site', fs'. split; [reflexivity|].
    apply (processSite_cache_has_no_subpages (collab := Sample.collaborators)
             (Sample.cachingSite VUndefined) site' Sample.cachedRun fs' Hrun).
    intros E. vm_compute in E. discriminate E.
  - vm_compute in Hrun. discriminate Hrun.
Defined.

(** C2 (the code departs from the claim).  [processSite] tests
    [site.forced], a property the main block never sets, where the
    configuration has [force]: with [force] true and a cache file present
    the cached records are loaded all the same, and the page set at the
    start of [readPages] is not the one of a run without cache file. *)
Theorem loadCachedPages_ignores_force :
  (∀ (collab : Collaborators) (parsed_recursive parsed_force : JSVal)
     (cache text : jsstring) (written now : Z),
     let site :=
       configured (main_site parsed_recursive parsed_force) cache
                  (VBool true) in
     force site = VBool true
     ∧ forced site = VUndefined
     ∧ loadCachedPages site (mkFS {[ cache := mkFile written text ]} now)
       = (records ← JSON_parse text; Some (set_pages site records))
     ∧ loadCachedPages site (mkFS ∅ now) = Some site)
  ∧ pages <$> loadCachedPages (Sample.cachingSite (VBool true)) Sample.cachedRun
    = Some [Sample.cachedRecord (VIso 1577836800500) (VIso 1577836801500)]
  ∧ pages <$> loadCachedPages (Sample.cachingSite (VBool true)) Sample.fs = Some [].
Proof.
  split; [|split; vm_compute; reflexivity].
  intros collab parsed_recursive parsed_force cache text written now site.
  split; [reflexivity|]. split; [reflexivity|]. split.
  - unfold loadCachedPages, isFile. simpl. rewrite lookup_singleton_eq.
    rewrite bool_decide_eq_true_2 by eauto. simpl.
    by destruct (JSON_parse text).
  - unfold loadCachedPages, isFile. simpl. rewrite lookup_empty.
    by rewrite bool_decide_eq_false_2 by (by intros [? ?]).
Qed.

End DriverSample.

(** ** The aggregator *)

Section StableSort.
Context {collab : Collaborators}.
Variable criteria : nat → JSVal.

#[local] Abbreviation ascending_stable := (ascending_stable criteria).
#[local] Abbreviation numeric := (numeric criteria).

Lemma compareAscending_num (a b : Z) :
  compareAscending (VNum a) (VNum b) = Gt ↔ b < a.
Proof.
  unfold compareAscending, js_lt, js_gt, isNull, isDefined. simpl.
  destruct (decide (VNum a = VNum b)) as [E|E].
  - injection E as ->. split; [discriminate | lia].
  - destruct (decide (b < a)) as [Hlt|Hge].
    + rewrite (bool_decide_eq_true_2 (b < a)) by done. done.
    + rewrite (bool_decide_eq_false_2 (b < a)) by done. simpl.
      destruct (bool_decide (a < b)); simpl; split; (discriminate || lia).
Qed.

Lemma sort_insert_perm (x : nat) (l : list nat) :
  sort_insert criteria x l ≡ₚ x :: l.
Proof.
  induction l as [|y l IH]; simpl; [done|].
  destruct (compareAscending (criteria x) (criteria y)); try done.
  rewrite IH. apply Permutation_swap.
Qed.

Lemma stable_sort_perm (l : list nat) : stable_sort criteria l ≡ₚ l.
Proof.
  induction l as [|x l IH]; simpl; [done|].
  unfold stable_sort in *. simpl. by rewrite sort_insert_perm, IH.
Qed.

Lemma sort_insert_sorted (x : nat) (l : list nat) :
  numeric x → Forall numeric l → Forall (λ y, (x < y)%nat) l →
  StronglySorted ascending_stable l →
  StronglySorted ascending_stable (sort_insert criteria x l).
Proof.
  intros [zx Hx] Hnum Hlt Hsorted.
  induction l as [|y l IH]; simpl; [repeat constructor|].
  apply Forall_cons in Hnum as [[zy Hy] Hnum].
  apply Forall_cons in Hlt as [Hxy Hlt].
  apply StronglySorted_cons in Hsorted as [Hyl Hsorted].
  rewrite Forall_forall in Hyl, Hlt.
  rewrite Hx, Hy. destruct (decide (zy < zx)) as [Hgt|Hle].
  - rewrite (proj2 (compareAscending_num zx zy) Hgt).
    apply StronglySorted_cons. split; [|by apply IH; [|apply Forall_forall|]].
    apply Forall_forall. intros z Hz.
    rewrite sort_insert_perm in Hz. apply elem_of_cons in Hz as [->|Hz].
    + exists zy, zx. split; [done|]. split; [done|]. by left.
    + by apply Hyl.
  - assert (StronglySorted ascending_stable (x :: y :: l)) as Hfront.
    { apply StronglySorted_cons. split.
      - apply Forall_cons. split.
        + exists zx, zy. split; [done|]. split; [done|]. lia.
        + apply Forall_forall. intros z Hz.
          destruct (Hyl z Hz) as (zy' & zz & E1 & E2 & Hz').
          assert (zy' = zy) as -> by congruence.
          exists zx, zz. split; [done|]. split; [done|].
          specialize (Hlt z Hz). lia.
      - apply StronglySorted_cons. split; [by apply Forall_forall | done]. }
    destruct (compareAscending (VNum zx) (VNum zy)) eqn:Hcmp; try done.
    by apply compareAscending_num in Hcmp.
Qed.

Lemma stable_sort_sorted (l : list nat) :
  Forall numeric l → StronglySorted lt l →
  StronglySorted ascending_stable (stable_sort criteria l).
Proof.
  intros Hnum Hinc. induction l as [|x l IH]; [constructor|].
  apply Forall_cons in Hnum as [Hx Hnum].
  apply StronglySorted_cons in Hinc as [Hxl Hinc].
  change (stable_sort criteria (x :: l))
    with (sort_insert criteria x (stable_sort criteria l)).
  apply sort_insert_sorted; [done| | |by apply IH].
  - by rewrite stable_sort_perm.
  - by rewrite stable_sort_perm.
Qed.

End StableSort.

Lemma StronglySorted_reverse {A} (R : relation A) (l : list A) :
  StronglySorted R l → StronglySorted (flip R) (reverse l).
Proof.
  induction 1 as [|x l Hl IH Hx]; [constructor|].
  rewrite reverse_cons. apply StronglySorted_app_2; [|done|repeat constructor].
  intros y z Hy Hz. apply list_elem_of_singleton in Hz as ->.
  rewrite elem_of_reverse in Hy. rewrite Forall_forall in Hx. by apply Hx.
Qed.

Lemma filter_seq_increasing (P : nat → Prop) `{!∀ i, Decision (P i)}
    (start len : nat) :
  StronglySorted lt (filter P (seq start len)).
Proof.
  revert start. induction len as [|len IH]; intros start; [constructor|].
  simpl. rewrite filter_cons. destruct (decide (P start)); [|apply IH].
  apply StronglySorted_cons. split; [|apply IH].
  apply Forall_forall. intros i Hi.
  apply list_elem_of_filter in Hi as [_ Hi]. apply elem_of_seq in Hi. lia.
Qed.

Lemma StronglySorted_mono {A} (R1 R2 : relation A) (l : list A) :
  (∀ x y, R1 x y → R2 x y) → StronglySorted R1 l → StronglySorted R2 l.
Proof.
  intros Himpl. induction 1 as [|x l Hl IH Hx]; constructor; [done|].
  eapply Forall_impl; [exact Hx|]. intros y. apply Himpl.
Qed.

Section Aggregator.
Context {collab : Collaborators}.

(** What lines 194-206 compute for an index page with a category, a sort
    key, [sortReverse] and a size cap. *)
Lemma indexSubpages_sorted_reversed (store : list Page) (page : Page)
    (C field : jsstring) (k : Z) :
  get page (lit "category") = VStr C → C ≠ [] →
  get page (lit "sortKey") = VStr field → field ≠ [] →
  get page (lit "sortReverse") = VBool true →
  get page (lit "maxSubpages") = VNum k → k ≠ 0 →
  indexSubpages store page
  = CArray (take (Z.to_nat k)
              (reverse (stable_sort (λ i, get (deref store i) field)
                                    (candidates store (VStr C))))).
Proof.
  intros Hcat HC Hkey Hfield Hrev Hmax Hk.
  unfold indexSubpages. rewrite Hcat, Hkey, Hrev, Hmax. simpl.
  rewrite (bool_decide_eq_false_2 (C = [])) by done.
  rewrite (bool_decide_eq_false_2 (field = [])) by done.
  rewrite (proj2 (Z.eqb_neq k 0) Hk). simpl.
  unfold candidates. by rewrite list_filter_filter.
Qed.

Lemma indexStep_length (store : list Page) (j : nat) :
  length (indexStep store j) = length store.
Proof.
  unfold indexStep. destruct (store !! j) as [p|]; [|done].
  destruct (truthy _); [apply length_insert | done].
Qed.

Lemma indexStep_other (store : list Page) (i j : nat) :
  i ≠ j → indexStep store j !! i = store !! i.
Proof.
  intros Hne. unfold indexStep. destruct (store !! j) as [p|]; [|done].
  destruct (truthy _); [by apply list_lookup_insert_ne | done].
Qed.

Lemma indexSteps_other (store : list Page) (i start len : nat) :
  (i < start)%nat →
  foldl indexStep store (seq start len) !! i = store !! i.
Proof.
  revert store start. induction len as [|len IH]; intros store start Hi;
    [done|].
  simpl. rewrite IH by lia. apply indexStep_other. lia.
Qed.

(** The page at position [i] after [generateIndexableSubpages] is the one
    its own iteration left: the iterations that follow do not touch it. *)
Lemma generateIndexableSubpages_at (site : Site) (i : nat) :
  (i < length (pages site))%nat →
  pages (generateIndexableSubpages site) !! i
  = indexStep (foldl indexStep (pages site) (seq 0 i)) i !! i.
Proof.
  intros Hi. unfold generateIndexableSubpages. simpl.
  replace (length (pages site)) with (i + S (length (pages site) - S i))%nat
    by lia.
  rewrite seq_app, foldl_app. simpl. by rewrite indexSteps_other by lia.
Qed.

(** C1 (amended).  For an index page with [category = C], [sortKey =
    field], [sortReverse = true] and [maxSubpages = k], over pages whose
    [field] is a number, the iteration of [generateIndexableSubpages] for
    that page assigns as its [subpages] the first [k] of the pages of
    category [C] that are not flagged [index: true], in descending order of
    [field]; pages of equal [field] come in reverse discovery order, the
    one found last first. *)
Theorem indexStep_top_k_descending (store : list Page) (i : nat) (page : Page)
    (C field : jsstring) (k : Z) :
  store !! i = Some page →
  truthy (get page (lit "index")) = true →
  get page (lit "category") = VStr C → C ≠ [] →
  get page (lit "sortKey") = VStr field → field ≠ [] →
  get page (lit "sortReverse") = VBool true →
  get page (lit "maxSubpages") = VNum k → k ≠ 0 →
  (∀ j, j ∈ candidates store (VStr C) →
        ∃ z : Z, get (deref store j) field = VNum z) →
  top_k (descending_ties reverse_discovery_order store field)
        (candidates store (VStr C)) k
        (get (deref (indexStep store i) i) (lit "subpages")).
Proof.
  intros Hi Hindex Hcat HC Hkey Hfield Hrev Hmax Hk Hnum.
  unfold indexStep. rewrite Hi, Hindex. unfold deref.
  rewrite list_lookup_insert_eq by (by eapply lookup_lt_Some).
  simpl. rewrite get_insert_eq.
  rewrite (indexSubpages_sorted_reversed store page C field k) by done.
  simpl.
  set (criteria := λ j, get (deref store j) field).
  exists (reverse (stable_sort criteria (candidates store (VStr C)))).
  split; [by rewrite reverse_Permutation, stable_sort_perm|].
  split; [|done].
  apply (StronglySorted_mono (flip (ascending_stable criteria))).
  - intros a b (zb & za & Eb & Ea & Hab). exists za, zb.
    split; [done|]. split; [done|]. unfold reverse_discovery_order. lia.
  - apply StronglySorted_reverse, stable_sort_sorted.
    + apply Forall_forall. intros j Hj. by apply Hnum.
    + apply filter_seq_increasing.
Qed.

End Aggregator.

Section AggregatorSample.
#[local] Existing Instance Sample.collaborators.

Lemma indexStep_top_k_descending_witness :
  top_k (descending_ties reverse_discovery_order Sample.blog (lit "weight"))
        (candidates Sample.blog (VStr (lit "blog"))) 5
        (get (deref (indexStep Sample.blog 3) 3) (lit "subpages")).
Proof.
  apply (indexStep_top_k_descending (collab := Sample.collaborators)
           Sample.blog 3 (Sample.blogIndex 5) (lit "blog") (lit "weight") 5).
  - reflexivity.
  - vm_compute. reflexivity.
  - vm_compute. reflexivity.
  - intros E. vm_compute in E. discriminate E.
  - vm_compute. reflexivity.
  - intros E. vm_compute in E. discriminate E.
  - vm_compute. reflexivity.
  - vm_compute. reflexivity.
  - lia.
  - intros j Hj.
    assert (candidates Sample.blog (VStr (lit "blog")) = [0; 1; 2]%nat) as E
      by (vm_compute; reflexivity).
    rewrite E in Hj.
    repeat (apply elem_of_cons in Hj as [->|Hj]);
      [eexists; vm_compute; reflexivity ..|].
    by apply elem_of_nil in Hj.
Defined.

(** C1 (as stated, refuted).  Three posts of category [blog], the first two
    of equal weight: the index page gets them in the order third, second,
    first.  The two posts of equal weight are not in discovery order, so
    the result is not the top 5 in descending order with ties in discovery
    order. *)
Lemma index_ties_not_in_discovery_order :
  let result :=
    get (deref (pages (generateIndexableSubpages
                         (set_pages Sample.site Sample.blog))) 3)
        (lit "subpages") in
  candidates Sample.blog (VStr (lit "blog")) = [0; 1; 2]%nat
  ∧ result = VRefs [2; 1; 0]%nat
  ∧ ¬ top_k (descending_ties discovery_order Sample.blog (lit "weight"))
            (candidates Sample.blog (VStr (lit "blog"))) 5 result.
Proof.
  intros result.
  assert (candidates Sample.blog (VStr (lit "blog")) = [0; 1; 2]%nat) as Ec
    by (vm_compute; reflexivity).
  assert (result = VRefs [2; 1; 0]%nat) as Er by (vm_compute; reflexivity).
  split; [done|]. split; [done|].
  rewrite Ec, Er. intros (L & Hperm & Hsorted & E).
  injection E as E.
  rewrite take_ge in E
    by (apply Permutation_length in Hperm; rewrite Hperm; simpl; lia).
  subst L.
  apply StronglySorted_cons in Hsorted as [_ Hsorted].
  apply StronglySorted_cons in Hsorted as [Hties _].
  apply Forall_cons in Hties as [(z1 & z0 & E1 & E0 & Hties) _].
  vm_compute in E1, E0. injection E1 as <-. injection E0 as <-.
  unfold discovery_order in Hties. lia.
Qed.

End AggregatorSample.

(** * Further properties

    ** Escaping and file names *)

(** X1. Escaping distributes over concatenation and never shortens a
    string: the escaped text of [a ++ b] is the escaped text of [a]
    followed by that of [b], and it is at least as long as the input. *)
Theorem convertUnicodeCharsToHtml_app_length :
  (∀ a b : jsstring,
     convertUnicodeCharsToHtml (a ++ b)
     = convertUnicodeCharsToHtml a ++ convertUnicodeCharsToHtml b)
  ∧ (∀ s : jsstring, (length s ≤ length (convertUnicodeCharsToHtml s))%nat).
Proof.
  split.
  - intros a b. rewrite !convertUnicodeCharsToHtml_concat.
    by rewrite map_app, concat_app.
  - intros s. rewrite convertUnicodeCharsToHtml_concat.
    induction s as [|c s IH]; simpl; [done|].
    rewrite length_app. unfold escape_unit at 1.
    destruct (c <=? 127)%N; simpl; lia.
Qed.

Section FileNames.
Context {collab : Collaborators}.

(** X2. [stripExtOfPathname] returns a prefix of the file name; when the
    extension [path.extname] reports is a suffix of the name, the stripped
    name followed by the extension is the name again, and a name without
    extension is returned as it is. *)
Theorem stripExtOfPathname_extname (filename : jsstring) :
  path_extname filename `suffix_of` filename →
  stripExtOfPathname filename `prefix_of` filename
  ∧ stripExtOfPathname filename ++ path_extname filename = filename
  ∧ (path_extname filename = [] → stripExtOfPathname filename = filename).
Proof.
  intros [stem Hstem]. unfold stripExtOfPathname.
  set (ext := path_extname filename) in *.
  assert (take (length filename - length ext) filename = stem) as Htake.
  { rewrite Hstem at 2. rewrite Hstem at 1. rewrite length_app.
    replace (length stem + length ext - length ext)%nat with (length stem)
      by lia.
    by rewrite take_app_length. }
  rewrite Htake. split; [by exists ext|]. split; [done|].
  intros Hext. rewrite Hext, app_nil_r in Hstem. done.
Qed.

End FileNames.

Lemma stripExtOfPathname_extname_witness :
  stripExtOfPathname (collab := Sample.collaborators) (lit "a.md")
    `prefix_of` lit "a.md"
  ∧ stripExtOfPathname (collab := Sample.collaborators) (lit "a.md")
    ++ path_extname (Collaborators := Sample.collaborators) (lit "a.md")
    = lit "a.md"
  ∧ (path_extname (Collaborators := Sample.collaborators) (lit "a.md") = [] →
     stripExtOfPathname (collab := Sample.collaborators) (lit "a.md")
     = lit "a.md").
Proof.
  apply (stripExtOfPathname_extname (collab := Sample.collaborators)
           (lit "a.md")).
  exists (lit "a"). vm_compute. reflexivity.
Defined.

(** ** The resolver over all files *)

Lemma uniq_from_elem (seen l : list jsstring) (x : jsstring) :
  x ∈ uniq_from seen l ↔ x ∈ l ∧ x ∉ seen.
Proof.
  revert seen. induction l as [|y l IH]; intros seen; simpl.
  - split; [by intros ?%elem_of_nil | by intros [?%elem_of_nil _]].
  - destruct (decide (y ∈ seen)) as [Hy|Hy].
    + rewrite IH, elem_of_cons. split.
      * intros [Hx Hs]. split; [by right | done].
      * intros [[->|Hx] Hs]; [done | by split].
    + rewrite !elem_of_cons, IH, elem_of_cons. split.
      * intros [->|(Hx & Hs)]; [by split; [left|]|].
        split; [by right|]. intros Hin. apply Hs. by right.
      * intros [[->|Hx] Hs]; [by left|].
        destruct (decide (x = y)) as [->|Hne]; [by left|].
        right. split; [done|]. by intros [?|?].
Qed.

Lemma uniq_from_NoDup (seen l : list jsstring) : NoDup (uniq_from seen l).
Proof.
  revert seen. induction l as [|y l IH]; intros seen; simpl; [constructor|].
  destruct (decide (y ∈ seen)); [apply IH|].
  constructor; [|apply IH]. rewrite uniq_from_elem.
  intros [_ Hy]. apply Hy. by left.
Qed.

Lemma uniq_from_sublist (seen l : list jsstring) :
  uniq_from seen l `sublist_of` l.
Proof.
  revert seen. induction l as [|y l IH]; intros seen; simpl; [done|].
  destruct (decide (y ∈ seen)).
  - by apply sublist_cons.
  - by apply sublist_skip.
Qed.

Lemma uniq_from_NoDup_id (seen l : list jsstring) :
  NoDup l → (∀ x, x ∈ l → x ∉ seen) → uniq_from seen l = l.
Proof.
  intros Hnd. revert seen. induction Hnd as [|y l Hy Hnd IH]; intros seen Hs;
    simpl; [done|].
  rewrite decide_False by (apply Hs; by left).
  f_equal. apply IH. intros x Hx [->|Hin]%elem_of_cons; [done|].
  by apply (Hs x); [right|].
Qed.

Section ResolverLoop.
Context {collab : Collaborators}.

Lemma readPage_site (site1 site2 : Site) (fs : FS)
    (cached : gmap jsstring Page) (file : jsstring) :
  contentDir site1 = contentDir site2 → writeExt site1 = writeExt site2 →
  readPage site1 fs cached file = readPage site2 fs cached file.
Proof.
  intros Hc Hw. unfold readPage, deriveUrl. by rewrite Hc, Hw.
Qed.

Lemma readPages_loop_results (site : Site) (fs : FS)
    (cached : gmap jsstring Page) (todo : list jsstring)
    (done_pages ps : list Page) (nSkip k : nat) :
  readPages_loop site fs cached todo done_pages nSkip = Some (ps, k) →
  ∃ results : list (Page * bool),
    Forall2 (λ file r, readPage site fs cached file = Some r) todo results
    ∧ ps = done_pages ++ results.*1
    ∧ k = (nSkip + length (filter (λ r, r.2 = true) results))%nat.
Proof.
  revert done_pages nSkip. induction todo as [|file todo IH];
    intros done_pages nSkip Hloop; simpl in Hloop.
  - injection Hloop as <- <-. exists []. split; [constructor|].
    simpl. rewrite app_nil_r. split; [done | lia].
  - destruct (readPage site fs cached file) as [[page skipped]|] eqn:Hpage;
      [|done].
    simpl in Hloop. destruct (IH _ _ Hloop) as (rest & Hrest & -> & ->).
    exists ((page, skipped) :: rest). split; [by constructor|]. split.
    + simpl. by rewrite <- app_assoc.
    + rewrite filter_cons. destruct skipped; simpl; lia.
Qed.

Lemma readPages_loop_None (site : Site) (fs : FS)
    (cached : gmap jsstring Page) (todo : list jsstring) (file : jsstring)
    (done_pages : list Page) (nSkip : nat) :
  file ∈ todo → readPage site fs cached file = None →
  readPages_loop site fs cached todo done_pages nSkip = None.
Proof.
  intros Hin Hnone. revert done_pages nSkip.
  induction todo as [|f todo IH]; intros done_pages nSkip;
    [by apply elem_of_nil in Hin|].
  simpl. apply elem_of_cons in Hin as [<-|Hin]; [by rewrite Hnone|].
  destruct (readPage site fs cached f) as [[page skipped]|]; [|done].
  simpl. by apply IH.
Qed.

(** The first occurrence of a file is kept by [_.uniq], after what
    [_.uniq] keeps of the files before it. *)
Lemma uniq_from_split (seen pre post : list jsstring) (x : jsstring) :
  x ∉ pre → x ∉ seen →
  ∃ seen', uniq_from seen (pre ++ x :: post)
           = uniq_from seen pre ++ x :: uniq_from seen' post.
Proof.
  revert seen. induction pre as [|a pre IH]; intros seen Hpre Hseen; simpl.
  - rewrite decide_False by done. by eexists.
  - apply not_elem_of_cons in Hpre as [Hne Hpre].
    destruct (decide (a ∈ seen)) as [Ha|Ha].
    + by apply IH.
    + destruct (IH (a :: seen) Hpre) as [seen' ->].
      { by apply not_elem_of_cons. }
      by eexists.
Qed.

Lemma readPages_unfold (site : Site) (fs : FS) :
  readPages site fs
  = '(ps, nSkip) ←
      readPages_loop (set_files site (lodash_uniq (discoveredFiles site fs)))
        fs (cachedPagesOf (pages site))
        (lodash_uniq (discoveredFiles site fs)) [] 0%nat;
    Some (set_pages (set_files site (lodash_uniq (discoveredFiles site fs)))
            ps, nSkip).
Proof.
  unfold readPages, discoveredFiles.
  destruct (decide (contentDir site = [])) as [E|E].
  - rewrite bool_decide_eq_true_2 by done. simpl. by rewrite app_nil_r.
  - rewrite bool_decide_eq_false_2 by done. done.
Qed.

(** X3. After [readPages], [site.files] holds every given or discovered
    file exactly once, in the order of first occurrence: a file stands
    after exactly the files that occur before its first occurrence.
    [site.pages] is replaced by one page per file, in that order: the page
    [readPage] builds for the file from the pages the site had before.
    Pages of files that are no longer listed are dropped, and [nSkip]
    counts the files whose re-parse was skipped. *)
Theorem readPages_one_page_per_file (site site' : Site) (fs : FS)
    (nSkip : nat) :
  readPages site fs = Some (site', nSkip) →
  NoDup (files site')
  ∧ (∀ file, file ∈ files site' ↔ file ∈ discoveredFiles site fs)
  ∧ files site' `sublist_of` discoveredFiles site fs
  ∧ (∀ (pre post : list jsstring) (x : jsstring),
       discoveredFiles site fs = pre ++ x :: post → x ∉ pre →
       ∃ pre' post' : list jsstring,
         files site' = pre' ++ x :: post' ∧ ∀ y, y ∈ pre' ↔ y ∈ pre)
  ∧ ∃ results : list (Page * bool),
      Forall2 (λ file r,
                 readPage site fs (cachedPagesOf (pages site)) file = Some r)
              (files site') results
      ∧ pages site' = results.*1
      ∧ nSkip = length (filter (λ r, r.2 = true) results)
      ∧ length (pages site') = length (files site')
      ∧ (nSkip ≤ length (files site'))%nat.
Proof.
  rewrite readPages_unfold. intros Hrun.
  destruct (readPages_loop _ _ _ _ _ _) as [[ps k]|] eqn:Hloop; [|done].
  simpl in Hrun. injection Hrun as <- <-. simpl.
  split; [apply uniq_from_NoDup|]. split.
  { intros file. unfold lodash_uniq. rewrite uniq_from_elem.
    split; [by intros [? _] | intros ?; split; [done | apply not_elem_of_nil]]. }
  split; [apply uniq_from_sublist|]. split.
  { intros pre post x -> Hpre. unfold lodash_uniq.
    destruct (uniq_from_split [] pre post x Hpre (not_elem_of_nil x))
      as [seen' ->].
    exists (uniq_from [] pre), (uniq_from seen' post). split; [done|].
    intros y. rewrite uniq_from_elem.
    split; [by intros [? _] | intros ?; split; [done | apply not_elem_of_nil]]. }
  destruct (readPages_loop_results _ _ _ _ _ _ _ _ Hloop)
    as (results & Hres & -> & ->).
  exists results. split.
  { eapply Forall2_impl; [exact Hres|]. intros file r <-.
    by apply readPage_site. }
  split; [done|]. split; [done|].
  apply Forall2_length in Hres. simpl. rewrite length_fmap. split; [done|].
  rewrite Hres. apply length_filter.
Qed.

(** X4. One source that cannot be read aborts the whole resolution: when a
    listed file does not exist, or has no cached record and a front matter
    that does not parse, [readPages] throws and no page is resolved. *)
Theorem readPages_aborts_on_bad_source (site : Site) (fs : FS)
    (file : jsstring) :
  file ∈ discoveredFiles site fs →
  (entries fs !! file = None
   ∨ ∃ f, entries fs !! file = Some f
          ∧ frontMatter_parse (data f) = None
          ∧ cachedPagesOf (pages site) !! file = None) →
  readPages site fs = None.
Proof.
  intros Hin Hbad. rewrite readPages_unfold.
  rewrite (readPages_loop_None _ _ _ _ file); [done| |].
  - unfold lodash_uniq. rewrite uniq_from_elem.
    split; [done | apply not_elem_of_nil].
  - rewrite readPage_unfold.
    destruct Hbad as [Hnone|(f & Hf & Hparse & Hcached)].
    + unfold refreshPage, getModifiedDate. by rewrite Hnone.
    + rewrite (refreshPage_cases fs file _ f Hf), Hparse.
      assert (isStale (VDate (mtime f)) (startPage (cachedPagesOf (pages site))
                                           file) = true) as ->; [|done].
      apply isStale_spec. unfold startPage. rewrite Hcached.
      rewrite get_insert_ne by key_ne.
      replace (get defaultPage (lit "modified")) with VUndefined
        by (vm_compute; reflexivity).
      discriminate.
Qed.

End ResolverLoop.

(** ** Cached records and field precedence *)

Section CacheOverlay.
Context {collab : Collaborators}.

Lemma cachedPages_fold_other (l : list Page) (acc : gmap jsstring Page)
    (key : jsstring) :
  (∀ q, q ∈ l → cacheKey q ≠ key) →
  foldl (λ cached page, <[cacheKey page := page]> cached) acc l !! key
  = acc !! key.
Proof.
  revert acc. induction l as [|p l IH]; intros acc Hl; simpl; [done|].
  rewrite IH by (intros q Hq; apply Hl; by right).
  apply lookup_insert_ne. apply Hl. by left.
Qed.

(** X5. In the dictionary of cached pages a later page replaces an earlier
    one of the same file name, so a record of the cache file, which is
    appended to [site.pages], wins over a page the site already had; a
    file name that no page has is not in the dictionary. *)
Theorem cachedPagesOf_last_wins (earlier later : list Page) (p : Page) :
  (∀ q, q ∈ later → cacheKey q ≠ cacheKey p) →
  cachedPagesOf (earlier ++ p :: later) !! cacheKey p = Some p
  ∧ ∀ file, file ≠ cacheKey p →
      (∀ q, q ∈ earlier ++ later → cacheKey q ≠ file) →
      cachedPagesOf (earlier ++ p :: later) !! file = None.
Proof.
  intros Hlater. unfold cachedPagesOf. fold cacheKey. split.
  - rewrite foldl_app. simpl. rewrite cachedPages_fold_other by done.
    apply lookup_insert_eq.
  - intros file Hp Hothers. rewrite cachedPages_fold_other; [done|].
    intros q [Hq|[->|Hq]%elem_of_cons]%elem_of_app; [|done|];
      apply Hothers, elem_of_app; auto.
Qed.

(** X6. When a source is re-parsed, a property set by the front matter
    overrides the cached record, a property of the cached record overrides
    the default page, and [filename] is the file's own name unless the front
    matter sets it; [content] and [modified] always come from the source:
    the converted body and the file's modification time. *)
Theorem refreshPage_precedence (fs : FS) (file : jsstring)
    (cached : gmap jsstring Page) (f : File) (meta : Page) (body : jsstring) :
  entries fs !! file = Some f →
  frontMatter_parse (data f) = Some (meta, body) →
  isStale (VDate (mtime f)) (startPage cached file) = true →
  ∃ mid : Page,
    refreshPage fs file (startPage cached file) = Some (mid, false)
    ∧ mid !! lit "content" = Some (VStr (convertCommonmarkToHtml body))
    ∧ mid !! lit "modified" = Some (VDate (mtime f))
    ∧ ∀ key, key ≠ lit "content" → key ≠ lit "modified" →
        mid !! key
        = match meta !! key with
          | Some v => Some v
          | None =>
              if decide (key = lit "filename") then Some (VStr file)
              else match cached !! file ≫= (λ c : Page, c !! key) with
                   | Some v => Some v
                   | None => defaultPage !! key
                   end
          end.
Proof.
  intros Hf Hparse Hstale.
  rewrite (refreshPage_cases fs file _ f Hf), Hstale, Hparse.
  eexists. split; [done|].
  split; [by rewrite lookup_insert_ne, lookup_insert_eq by key_ne|].
  split; [by rewrite lookup_insert_eq|].
  intros key Hc Hm. rewrite !lookup_insert_ne by done.
  unfold lodash_assign. rewrite lookup_union, lookup_insert_ne by done.
  destruct (meta !! key) as [v|]; simpl.
  { by destruct (startPage cached file !! key). }
  rewrite (left_id None _). unfold startPage.
  destruct (decide (key = lit "filename")) as [->|Hfn].
  { by rewrite lookup_insert_eq. }
  rewrite lookup_insert_ne by done.
  destruct (cached !! file) as [c|]; simpl; [|done].
  unfold lodash_assign. rewrite lookup_union.
  destruct (c !! key) as [v|]; simpl.
  - by destruct (defaultPage !! key).
  - by rewrite (left_id None _).
Qed.

(** X7. When the staleness test finds the file unchanged, the source is
    not read: the page is the default page overlaid with the cached record,
    and two file systems that agree on the file's modification time give
    the same page whatever the file holds. *)
Theorem readPage_unchanged_ignores_source (site : Site) (fs1 fs2 : FS)
    (cached : gmap jsstring Page) (file : jsstring) (f1 f2 : File) :
  entries fs1 !! file = Some f1 →
  entries fs2 !! file = Some f2 →
  mtime f1 = mtime f2 →
  isStale (VDate (mtime f1)) (startPage cached file) = false →
  refreshPage fs1 file (startPage cached file)
  = Some (startPage cached file, true)
  ∧ readPage site fs1 cached file = readPage site fs2 cached file.
Proof.
  intros H1 H2 Hm Hfresh.
  assert (refreshPage fs1 file (startPage cached file)
          = Some (startPage cached file, true)) as R1
    by (by rewrite (refreshPage_cases fs1 file _ f1 H1), Hfresh).
  assert (refreshPage fs2 file (startPage cached file)
          = Some (startPage cached file, true)) as R2
    by (by rewrite (refreshPage_cases fs2 file _ f2 H2), <- Hm, Hfresh).
  split; [done|]. by rewrite !readPage_unfold, R1, R2.
Qed.

(** X8. Every page [readPage] returns has a [target] that is a string and
    a [relSiteUrl] that is never empty: the path from the target's
    directory back to the site root, or [.] when that path is empty.  A
    page without [target] gets its [url] as target. *)
Theorem readPage_target_relSiteUrl (site : Site) (fs : FS)
    (cached : gmap jsstring Page) (file : jsstring) (page' : Page)
    (skipped : bool) :
  readPage site fs cached file = Some (page', skipped) →
  ∃ target rel : jsstring,
    as_string (get page' (lit "target")) = Some target
    ∧ get page' (lit "relSiteUrl") = VStr rel
    ∧ rel ≠ []
    ∧ rel = (if decide (path_relative (path_dirname target) (lit ".") = [])
             then lit "."
             else path_relative (path_dirname target) (lit "."))
    ∧ (truthy (get page' (lit "target")) = false →
       get page' (lit "target") = get page' (lit "url")).
Proof.
  rewrite readPage_unfold. intros Hrun.
  destruct (refreshPage fs file (startPage cached file)) as [[mid sk]|];
    [|done].
  simpl in Hrun. destruct (resolvePage site mid) as [p|] eqn:Hres; [|done].
  simpl in Hrun. injection Hrun as <- <-.
  unfold resolvePage in Hres.
  destruct (deriveSlug (normalizeDate mid)) as [p1|]; [|done]. simpl in Hres.
  destruct (reconvertContent p1) as [p2|]; [|done]. simpl in Hres.
  destruct (deriveUrl site p2) as [p3|]; [|done]. simpl in Hres.
  unfold deriveRelSiteUrl in Hres.
  destruct (as_string (get (deriveTarget p3) (lit "target"))) as [target|]
    eqn:Ht; [|done].
  simpl in Hres. injection Hres as <-.
  exists target. eexists. rewrite get_insert_eq.
  rewrite !get_insert_ne by key_ne.
  split; [done|]. split; [done|]. split.
  { case_decide as E; [intros E'; vm_compute in E'; discriminate E' | done]. }
  split; [done|].
  unfold deriveTarget.
  destruct (truthy (get p3 (lit "target"))) eqn:Htruthy; simpl.
  - by rewrite Htruthy.
  - intros _. rewrite get_insert_eq. by rewrite get_insert_ne by key_ne.
Qed.

End CacheOverlay.

Section ResolverContent.
Context {collab : Collaborators}.

(** X9. The content of every page [readPage] returns is a string of ASCII
    characters only: whatever the markup converter, the front matter or the
    cache supplied, line 168 passes it through the escaping function last. *)
Theorem readPage_content_ascii (site : Site) (fs : FS)
    (cached : gmap jsstring Page) (file : jsstring) (page' : Page)
    (skipped : bool) :
  readPage site fs cached file = Some (page', skipped) →
  ∃ c : jsstring,
    get page' (lit "content") = VStr c ∧ Forall is_ascii c.
Proof.
  rewrite readPage_unfold. intros Hrun.
  destruct (refreshPage fs file (startPage cached file)) as [[mid sk]|];
    [|done].
  simpl in Hrun. destruct (resolvePage site mid) as [p|] eqn:Hres; [|done].
  simpl in Hrun. injection Hrun as <- <-.
  unfold resolvePage in Hres.
  destruct (deriveSlug (normalizeDate mid)) as [p1|]; [|done]. simpl in Hres.
  destruct (reconvertContent p1) as [p2|] eqn:Hconv; [|done]. simpl in Hres.
  destruct (deriveUrl site p2) as [p3|] eqn:Hurl; [|done]. simpl in Hres.
  unfold reconvertContent, convertContent in Hconv.
  destruct (as_string (get p1 (lit "content"))) as [text|]; [|done].
  simpl in Hconv. injection Hconv as <-.
  assert (get p3 (lit "content") = VStr (convertCommonmarkToHtml text)) as H3.
  { unfold deriveUrl in Hurl. destruct (negb _).
    - destruct (as_string _); [|done]. simpl in Hurl. injection Hurl as <-.
      rewrite get_insert_ne by key_ne. by rewrite get_insert_eq.
    - injection Hurl as <-. by rewrite get_insert_eq. }
  unfold deriveRelSiteUrl in Hres.
  destruct (as_string _) as [target|]; [|done]. simpl in Hres.
  injection Hres as <-. exists (convertCommonmarkToHtml text).
  split; [|apply convertUnicodeCharsToHtml_ascii].
  rewrite get_insert_ne by key_ne. unfold deriveTarget.
  destruct (negb _); [by rewrite get_insert_ne by key_ne | done].
Qed.

End ResolverContent.

(** ** The aggregator: frame and references *)

Section AggregatorFrame.
Context {collab : Collaborators}.

Lemma drawn_from_perm (base l l' : list nat) :
  l' ≡ₚ l → drawn_from base l → drawn_from base l'.
Proof.
  intros Hp [Hnd Hsub]. split; [by rewrite Hp|].
  intros j Hj. apply Hsub. by rewrite <- Hp.
Qed.

Lemma drawn_from_filter (P : nat → Prop) `{!∀ i, Decision (P i)}
    (base l : list nat) :
  drawn_from base l → drawn_from base (filter P l).
Proof.
  intros [Hnd Hsub]. split; [by apply NoDup_filter|].
  intros j [_ Hj]%list_elem_of_filter. by apply Hsub.
Qed.

Lemma drawn_from_take (n : nat) (base l : list nat) :
  drawn_from base l → drawn_from base (take n l).
Proof.
  intros [Hnd Hsub]. split.
  - eapply sublist_NoDup; [done | apply sublist_take].
  - intros j Hj. apply Hsub.
    eapply elem_of_sublist; [done | apply sublist_take].
Qed.

Lemma drawn_from_nil (base : list nat) : drawn_from base [].
Proof. split; [constructor | by intros j ?%elem_of_nil]. Qed.

Lemma nonIndexRefs_drawn (store : list Page) :
  drawn_from (nonIndexRefs store) (nonIndexRefs store).
Proof.
  split; [|done]. unfold nonIndexRefs. apply NoDup_filter, NoDup_seq.
Qed.

Lemma indexSubpages_drawn (store : list Page) (page : Page) :
  drawn_from (nonIndexRefs store)
             (collection_refs (indexSubpages store page)).
Proof.
  unfold indexSubpages, lodash_omitBy. fold (nonIndexRefs store).
  set (c0 := CObject (nonIndexRefs store)).
  assert (drawn_from (nonIndexRefs store) (collection_refs c0)) as H0
    by apply nonIndexRefs_drawn.
  set (c1 := if truthy (get page (lit "category")) then _ else c0).
  assert (drawn_from (nonIndexRefs store) (collection_refs c1)) as H1.
  { unfold c1. destruct (truthy (get page (lit "category"))); [|done].
    simpl. by apply drawn_from_filter. }
  set (c2 := if truthy (get page (lit "sortKey")) then _ else c1).
  assert (drawn_from (nonIndexRefs store) (collection_refs c2)) as H2.
  { unfold c2. destruct (truthy (get page (lit "sortKey"))); [|done].
    assert (drawn_from (nonIndexRefs store)
              (collection_refs
                 (lodash_sortBy store c1 (get page (lit "sortKey"))))) as Hs
      by (simpl; eapply drawn_from_perm; [apply stable_sort_perm | done]).
    destruct (truthy (get page (lit "sortReverse"))); [|done].
    simpl. simpl in Hs.
    eapply drawn_from_perm; [apply reverse_Permutation | done]. }
  destruct (truthy (get page (lit "maxSubpages"))); [|done].
  unfold lodash_take. destruct c2 as [l|l]; simpl.
  - apply drawn_from_nil.
  - by apply drawn_from_take.
Qed.

Lemma indexStep_frame (store : list Page) (i j : nat) (p : Page) :
  store !! j = Some p →
  ∃ p', indexStep store i !! j = Some p'
        ∧ agree_off (lit "subpages") p p'
        ∧ (truthy (get p (lit "index")) = false → p' = p).
Proof.
  intros Hj. unfold indexStep.
  destruct (store !! i) as [q|] eqn:Hi;
    [|exists p; split; [done|]; split; [apply agree_off_refl | done]].
  destruct (truthy (get q (lit "index"))) eqn:Hq;
    [|exists p; split; [done|]; split; [apply agree_off_refl | done]].
  destruct (decide (i = j)) as [->|Hne].
  - rewrite Hi in Hj. injection Hj as ->.
    rewrite list_lookup_insert_eq by (by eapply lookup_lt_Some).
    eexists. split; [done|]. split; [apply agree_off_insert|].
    by rewrite Hq.
  - rewrite list_lookup_insert_ne by done. exists p.
    split; [done|]. split; [apply agree_off_refl | done].
Qed.

Lemma agree_off_trans (key : jsstring) (p q r : Page) :
  agree_off key p q → agree_off key q r → agree_off key p r.
Proof. intros H1 H2 k Hk. by rewrite H2, H1. Qed.

Lemma indexSteps_frame (todo : list nat) (store : list Page) (j : nat)
    (p : Page) :
  store !! j = Some p →
  ∃ p', foldl indexStep store todo !! j = Some p'
        ∧ agree_off (lit "subpages") p p'
        ∧ (truthy (get p (lit "index")) = false → p' = p).
Proof.
  revert store p. induction todo as [|i todo IH]; intros store p Hj; simpl.
  - exists p. split; [done|]. split; [apply agree_off_refl | done].
  - destruct (indexStep_frame store i j p Hj) as (p1 & H1 & A1 & E1).
    destruct (IH _ _ H1) as (p2 & H2 & A2 & E2).
    exists p2. split; [done|]. split; [by eapply agree_off_trans|].
    intros Hp. rewrite <- (E1 Hp). apply E2.
    rewrite (A1 (lit "index")) by key_ne. done.
Qed.

Lemma indexSteps_length (todo : list nat) (store : list Page) :
  length (foldl indexStep store todo) = length store.
Proof.
  revert store. induction todo as [|i todo IH]; intros store; simpl; [done|].
  by rewrite IH, indexStep_length.
Qed.

(** X10. [generateIndexableSubpages] keeps the number and the order of the
    pages and changes nothing but [subpages]: every page reads as before on
    every other property, and a page that is not an index page is left
    exactly as it was. *)
Theorem generateIndexableSubpages_frame (site : Site) :
  length (pages (generateIndexableSubpages site)) = length (pages site)
  ∧ ∀ (i : nat) (p : Page),
      pages site !! i = Some p →
      ∃ p', pages (generateIndexableSubpages site) !! i = Some p'
            ∧ agree_off (lit "subpages") p p'
            ∧ (truthy (get p (lit "index")) = false → p' = p).
Proof.
  unfold generateIndexableSubpages. simpl. split.
  - apply indexSteps_length.
  - intros i p Hi. by apply indexSteps_frame.
Qed.

Lemma nonIndexRefs_elem (store : list Page) (j : nat) :
  j ∈ nonIndexRefs store
  ↔ (j < length store)%nat ∧ get (deref store j) (lit "index") ≠ VBool true.
Proof.
  unfold nonIndexRefs. rewrite list_elem_of_filter, elem_of_seq.
  unfold matchesProperty. split.
  - intros [Hno Hj]. split; [lia|]. intros E. apply Hno. split; [done|].
    by left.
  - intros [Hj Hno]. split; [|lia]. by intros [E _].
Qed.

(** X11. After [generateIndexableSubpages] the [subpages] of an index page
    hold distinct references to pages of the site, none of which is
    flagged [index: true]: an index page lists each page at most once and
    never lists an index page, itself included. *)
Theorem generateIndexableSubpages_references (site : Site) (i : nat)
    (p' : Page) :
  pages (generateIndexableSubpages site) !! i = Some p' →
  truthy (get p' (lit "index")) = true →
  ∃ refs : list nat,
    (get p' (lit "subpages") = VRefs refs
     ∨ get p' (lit "subpages") = VRefObj refs)
    ∧ NoDup refs
    ∧ ∀ j, j ∈ refs →
        (j < length (pages site))%nat
        ∧ get (deref (pages site) j) (lit "index") ≠ VBool true
        ∧ (get p' (lit "index") = VBool true → j ≠ i).
Proof.
  intros Hi' Hindex.
  assert (i < length (pages site))%nat as Hlt.
  { apply lookup_lt_Some in Hi'.
    by rewrite (proj1 (generateIndexableSubpages_frame site)) in Hi'. }
  rewrite generateIndexableSubpages_at in Hi' by done.
  set (store := foldl indexStep (pages site) (seq 0 i)) in *.
  destruct (lookup_lt_is_Some_2 (pages site) i Hlt) as [p Hp].
  destruct (indexSteps_frame (seq 0 i) (pages site) i p Hp)
    as (q & Hq & Aq & _). fold store in Hq.
  unfold indexStep in Hi'. rewrite Hq in Hi'.
  assert (truthy (get q (lit "index")) = true) as Hqi.
  { destruct (truthy (get q (lit "index"))) eqn:E; [done|].
    rewrite Hq in Hi'. injection Hi' as <-. congruence. }
  rewrite Hqi in Hi'.
  rewrite list_lookup_insert_eq in Hi' by (by eapply lookup_lt_Some).
  injection Hi' as <-. rewrite get_insert_eq.
  destruct (indexSubpages_drawn store q) as [Hnd Hsub].
  exists (collection_refs (indexSubpages store q)).
  split; [by destruct (indexSubpages store q); [right | left]|].
  split; [done|]. intros j Hj. apply Hsub, nonIndexRefs_elem in Hj.
  destruct Hj as [Hjlt Hjno]. unfold store in Hjlt.
  rewrite indexSteps_length in Hjlt.
  destruct (lookup_lt_is_Some_2 (pages site) j Hjlt) as [pj Hpj].
  destruct (indexSteps_frame (seq 0 i) (pages site) j pj Hpj)
    as (qj & Hqj & Aqj & _). fold store in Hqj.
  assert (get (deref (pages site) j) (lit "index")
          = get (deref store j) (lit "index")) as Esame.
  { unfold deref. rewrite Hpj, Hqj. simpl. by rewrite Aqj by key_ne. }
  split; [done|]. split; [by rewrite Esame|].
  rewrite get_insert_ne by key_ne. intros Etrue ->.
  apply Hjno. unfold deref. rewrite Hq. done.
Qed.

End AggregatorFrame.

(** ** The aggregator: the other orders *)

Section AggregatorOrders.
Context {collab : Collaborators}.

Lemma indexStep_subpages (store : list Page) (i : nat) (page : Page) :
  store !! i = Some page →
  truthy (get page (lit "index")) = true →
  get (deref (indexStep store i) i) (lit "subpages")
  = collection_value (indexSubpages store page).
Proof.
  intros Hi Hindex. unfold indexStep. rewrite Hi, Hindex. unfold deref.
  rewrite list_lookup_insert_eq by (by eapply lookup_lt_Some).
  simpl. by rewrite get_insert_eq.
Qed.

(** X12. With [sortReverse] false, an index page with [category = C],
    [sortKey = field] and [maxSubpages = k], over pages whose [field] is a
    number, gets the first [k] pages of category [C] in ascending order of
    [field], pages of equal [field] in discovery order: the sort is
    stable. *)
Theorem indexStep_top_k_ascending (store : list Page) (i : nat) (page : Page)
    (C field : jsstring) (k : Z) :
  store !! i = Some page →
  truthy (get page (lit "index")) = true →
  get page (lit "category") = VStr C → C ≠ [] →
  get page (lit "sortKey") = VStr field → field ≠ [] →
  truthy (get page (lit "sortReverse")) = false →
  get page (lit "maxSubpages") = VNum k → k ≠ 0 →
  (∀ j, j ∈ candidates store (VStr C) →
        ∃ z : Z, get (deref store j) field = VNum z) →
  top_k (ascending_stable (λ j, get (deref store j) field))
        (candidates store (VStr C)) k
        (get (deref (indexStep store i) i) (lit "subpages")).
Proof.
  intros Hi Hindex Hcat HC Hkey Hfield Hrev Hmax Hk Hnum.
  rewrite (indexStep_subpages store i page Hi Hindex).
  unfold indexSubpages. rewrite Hcat, Hkey, Hrev, Hmax. simpl.
  rewrite (bool_decide_eq_false_2 (C = [])) by done.
  rewrite (bool_decide_eq_false_2 (field = [])) by done.
  rewrite (proj2 (Z.eqb_neq k 0) Hk). simpl.
  rewrite list_filter_filter. fold (candidates store (VStr C)).
  set (criteria := λ j, get (deref store j) field).
  exists (stable_sort criteria (candidates store (VStr C))).
  split; [apply stable_sort_perm|]. split; [|done].
  apply stable_sort_sorted.
  - apply Forall_forall. intros j Hj. by apply Hnum.
  - apply filter_seq_increasing.
Qed.

(** X13. An index page with a category and no sort key lists the pages of
    that category in discovery order, whatever [sortReverse] is (the
    reversal belongs to the sorting branch): its [subpages] are a leading
    part of the candidates, all of them when [maxSubpages] is not set. *)
Theorem indexSubpages_unsorted (store : list Page) (page : Page)
    (C : jsstring) :
  get page (lit "category") = VStr C → C ≠ [] →
  truthy (get page (lit "sortKey")) = false →
  ∃ refs : list nat,
    collection_value (indexSubpages store page) = VRefs refs
    ∧ refs `prefix_of` candidates store (VStr C)
    ∧ StronglySorted lt refs
    ∧ (truthy (get page (lit "maxSubpages")) = false →
       refs = candidates store (VStr C)).
Proof.
  intros Hcat HC Hkey. unfold indexSubpages. rewrite Hcat, Hkey. simpl.
  rewrite (bool_decide_eq_false_2 (C = [])) by done. simpl.
  assert (StronglySorted lt (candidates store (VStr C))) as Hinc
    by apply filter_seq_increasing.
  destruct (truthy (get page (lit "maxSubpages"))); simpl;
    rewrite list_filter_filter; fold (candidates store (VStr C)).
  - eexists. split; [done|]. split; [apply prefix_take|]. split; [|done].
    rewrite <- (take_drop (Z.to_nat (toInteger (get page (lit "maxSubpages"))))
                  (candidates store (VStr C))) in Hinc.
    by apply StronglySorted_app_1_l in Hinc.
  - eexists. split; [done|]. split; [reflexivity|]. by split.
Qed.

(** X14. An index page with neither category nor sort key does not get an
    array of pages: [_.omitBy] on an array gives a plain object, which
    [_.take] answers with the empty array.  With [maxSubpages] set the page
    has no subpages at all; without it [subpages] is that object, and
    [writePages] formats the date of the page alone. *)
Theorem indexSubpages_no_category_no_sortKey (store : list Page) (page : Page)
    (i : nat) :
  truthy (get page (lit "category")) = false →
  truthy (get page (lit "sortKey")) = false →
  collection_value (indexSubpages store page)
  = (if truthy (get page (lit "maxSubpages")) then VRefs []
     else VRefObj (nonIndexRefs store))
  ∧ fst <$> datedPages i (collection_value (indexSubpages store page))
    = Some [i].
Proof.
  intros Hcat Hkey. unfold indexSubpages. rewrite Hcat, Hkey.
  unfold lodash_omitBy. fold (nonIndexRefs store).
  by destruct (truthy (get page (lit "maxSubpages"))).
Qed.

End AggregatorOrders.

(** ** The writer: templates, frame and failures *)

Section WriterFrame.
Context {collab : Collaborators}.

(** X15. [getTemplateDir] searches the source file's directory, then the
    template directory, then the built-in defaults, and returns the first
    path that exists: a template beside the source shadows the other two,
    and whatever it returns, other than [null], is an existing path, a
    file or a directory: [fs.existsSync] does not tell them apart, so a
    directory at the first candidate path is returned as the template. *)
Theorem getTemplateDir_first_match (fs : FS) (site : Site) (page : Page)
    (filename name : jsstring) :
  get page (lit "filename") = VStr filename →
  get page (lit "template") = VStr name →
  let own := path_join (path_dirname filename) name in
  let configured_dir := path_join (templateDir site) name in
  let builtin := path_join (path_join script_dirname (lit "defaults")) name in
  (existsSync fs own = true → getTemplateDir fs page site = Some (Some own))
  ∧ (existsSync fs own = false → existsSync fs configured_dir = true →
     getTemplateDir fs page site = Some (Some configured_dir))
  ∧ (existsSync fs own = false → existsSync fs configured_dir = false →
     existsSync fs builtin = true →
     getTemplateDir fs page site = Some (Some builtin))
  ∧ (∀ t, getTemplateDir fs page site = Some (Some t) →
          existsSync fs t = true
          ∧ (t = own ∨ t = configured_dir ∨ t = builtin))
  ∧ (isDirectory fs own = true → getTemplateDir fs page site = Some (Some own)).
Proof.
  intros Hf Hn own configured_dir builtin.
  assert (isDirectory fs own = true → existsSync fs own = true) as Hdir.
  { intros Hd. unfold existsSync. rewrite Hd. apply orb_true_r. }
  unfold getTemplateDir, templateDirsOf. rewrite Hf, Hn. simpl.
  fold own configured_dir builtin.
  destruct (existsSync fs own) eqn:E1.
  { split; [done|]. split; [done|]. split; [done|]. split; [|done].
    intros t [= <-]. auto. }
  destruct (existsSync fs configured_dir) eqn:E2.
  { split; [done|]. split; [done|]. split; [done|]. split.
    - intros t [= <-]. auto.
    - intros Hd. by specialize (Hdir Hd). }
  destruct (existsSync fs builtin) eqn:E3.
  { split; [done|]. split; [done|]. split; [done|]. split.
    - intros t [= <-]. auto.
    - intros Hd. by specialize (Hdir Hd). }
  split; [done|]. split; [done|]. split; [done|]. split; [by intros t [=]|].
  intros Hd. by specialize (Hdir Hd).
Qed.

Lemma formatDates_length (fmt : JSVal) (refs : list nat)
    (store store' : list Page) :
  formatDates fmt refs store = Some store' → length store' = length store.
Proof.
  revert store. induction refs as [|r refs IH]; intros store; simpl.
  - by intros [= <-].
  - destruct (store !! r) as [p|]; [|done]. simpl.
    destruct (dateFormat _ _) as [d|]; [|done]. simpl.
    intros Hrest. rewrite (IH _ Hrest). apply length_insert.
Qed.

Lemma prepareWrite_inv (site : Site) (store store1 : list Page) (i : nat)
    (page : Page) (outHtml : jsstring) :
  prepareWrite site store i = Some (store1, page, outHtml) →
  length store1 = length store ∧ store1 !! i = Some page.
Proof.
  unfold prepareWrite. destruct (store !! i) as [p|]; [|done]. simpl.
  destruct (datedPages i _) as [[refs other]|]; [|done]. simpl.
  destruct (formatDates _ refs store) as [st|] eqn:Hfmt; [|done]. simpl.
  destruct (if other then _ else _); [|done]. simpl.
  destruct (st !! i) as [q|] eqn:Hq; [|done]. simpl.
  destruct (as_string _); [|done]. simpl. intros [= <- <- _].
  split; [by eapply formatDates_length | done].
Qed.

(** X16. An iteration of [writePages] touches one file at most: a skipped
    page leaves the file system as it was; a written page changes the
    output path alone, stamps it with the current time, and records that
    same time in the page's [writeTime].  The number of pages does not
    change. *)
Theorem writePage_frame (site : Site) (fs fs' : FS) (store store' : list Page)
    (i : nat) (outcome : WriteOutcome) :
  writePage site fs store i = Some (store', fs', outcome) →
  length store' = length store
  ∧ clock fs' = clock fs
  ∧ match outcome with
    | Skipped => fs' = fs
    | Written template outHtml text =>
        entries fs' !! outHtml = Some (mkFile (clock fs) text)
        ∧ (∀ path, path ≠ outHtml → entries fs' !! path = entries fs !! path)
        ∧ get (deref store' i) (lit "writeTime") = VDate (clock fs)
    end.
Proof.
  unfold writePage.
  destruct (prepareWrite site store i) as [[[store1 page] outHtml]|] eqn:Hprep;
    [|done].
  simpl. destruct (prepareWrite_inv _ _ _ _ _ _ Hprep) as [Hlen Hi].
  destruct (skipWrite fs outHtml page).
  { intros [= <- <- <-]. by split. }
  destruct (getTemplateDir fs page site) as [template|]; [|done]. simpl.
  destruct (renderPage fs site store1 page template) as [text|]; [|done].
  simpl. unfold getModifiedDate, writeFileSync. simpl.
  rewrite lookup_insert_eq. simpl. intros [= <- <- <-]. simpl.
  split; [by rewrite length_insert|]. split; [done|].
  split; [by rewrite lookup_insert_eq|].
  split; [by intros path Hne; rewrite lookup_insert_ne|].
  unfold deref.
  rewrite list_lookup_insert_eq by (by eapply lookup_lt_Some).
  simpl. by rewrite get_insert_eq.
Qed.

Lemma writePages_loop_frame (site : Site) (todo : list nat) (fs fs' : FS)
    (store store' : list Page) (nSkip k : nat) :
  writePages_loop site todo fs store nSkip = Some (store', fs', k) →
  length store' = length store
  ∧ clock fs' = clock fs
  ∧ (nSkip ≤ k ≤ nSkip + length todo)%nat
  ∧ ∀ path, is_Some (entries fs !! path) → is_Some (entries fs' !! path).
Proof.
  revert fs store nSkip. induction todo as [|i todo IH];
    intros fs store nSkip; simpl.
  - intros [= <- <- <-]. split; [done|]. split; [done|]. split; [lia | done].
  - destruct (writePage site fs store i) as [[[st1 fs1] outcome]|] eqn:Hstep;
      [|done].
    simpl. intros Hrest.
    destruct (writePage_frame _ _ _ _ _ _ _ Hstep) as (L1 & C1 & O1).
    destruct (IH _ _ _ Hrest) as (L2 & C2 & N2 & F2).
    split; [congruence|]. split; [congruence|]. split.
    + destruct outcome; lia.
    + intros path Hpath. apply F2. destruct outcome as [|t out text].
      * by subst fs1.
      * destruct O1 as (Hout & Hother & _).
        destruct (decide (path = out)) as [->|Hne]; [by rewrite Hout|].
        by rewrite Hother.
Qed.

(** X17. [writePages] and [processSite] never remove a file: every path
    that exists before the run exists after it.  [writePages] keeps the
    number of pages, and its count of skipped writes is at most that
    number. *)
Theorem writePages_keeps_files (site : Site) (fs : FS) :
  (∀ site' fs' nSkip,
     writePages site fs = Some (site', fs', nSkip) →
     length (pages site') = length (pages site)
     ∧ (nSkip ≤ length (pages site))%nat
     ∧ ∀ path, is_Some (entries fs !! path) → is_Some (entries fs' !! path))
  ∧ (∀ site' fs',
       processSite site fs = Some (site', fs') →
       ∀ path, is_Some (entries fs !! path) → is_Some (entries fs' !! path)).
Proof.
  assert (∀ s f s' f' n,
            writePages s f = Some (s', f', n) →
            length (pages s') = length (pages s)
            ∧ (n ≤ length (pages s))%nat
            ∧ ∀ path, is_Some (entries f !! path) →
                      is_Some (entries f' !! path)) as Hwrite.
  { intros s f s' f' n. unfold writePages.
    destruct (writePages_loop _ _ _ _ _) as [[[st f1] k]|] eqn:Hloop; [|done].
    simpl. intros [= <- <- <-].
    destruct (writePages_loop_frame _ _ _ _ _ _ _ _ Hloop)
      as (L & _ & N & F).
    rewrite length_seq in N. simpl. split; [done|]. split; [lia | done]. }
  split; [apply Hwrite|].
  intros site' fs'. unfold processSite.
  destruct (loadCachedPages site fs) as [s1|]; [|done]. simpl.
  destruct (readPages s1 fs) as [[s2 n2]|]; [|done]. simpl.
  destruct (writePages (generateIndexableSubpages s2) fs)
    as [[[s4 fs4] n4]|] eqn:H4; [|done].
  simpl. intros [= Hsave] path Hpath.
  destruct (Hwrite _ _ _ _ _ H4) as (_ & _ & F4). specialize (F4 path Hpath).
  unfold saveCachedPages in Hsave. destruct (negb _).
  - injection Hsave as _ <-. unfold writeFileSync. simpl.
    destruct (decide (cachedPages s4 = path)) as [->|Hne].
    + by rewrite lookup_insert_eq.
    + by rewrite lookup_insert_ne.
  - by injection Hsave as _ <-.
Qed.

(** X18. A template that is found and whose name does not end in [pug] is
    neither read nor rendered: the page's content is written as it is, as
    for a page without template. *)
Theorem writePage_non_pug_template (site : Site) (fs : FS)
    (store store1 : list Page) (i : nat) (page : Page)
    (outHtml template text : jsstring) :
  prepareWrite site store i = Some (store1, page, outHtml) →
  skipWrite fs outHtml page = false →
  getTemplateDir fs page site = Some (Some template) →
  ¬ lit "pug" `suffix_of` template →
  get page (lit "content") = VStr text →
  writePage site fs store i
  = Some (<[i := <[lit "writeTime" := VDate (clock fs)]> page]> store1,
          writeFileSync fs outHtml text,
          Written (Some template) outHtml text).
Proof.
  intros Hprep Hskip Htemplate Hpug Hcontent.
  unfold writePage. rewrite Hprep. simpl. rewrite Hskip, Htemplate. simpl.
  unfold renderPage, lodash_endsWith.
  rewrite bool_decide_eq_false_2 by done. rewrite Hcontent. simpl.
  unfold getModifiedDate, writeFileSync. simpl.
  by rewrite lookup_insert_eq.
Qed.

(** X24. A template name that is a directory beside the source is taken
    for the template: [getTemplateDir] returns the directory and, its path
    not ending in [pug], the page's content is written as it is. *)
Theorem writePage_directory_template (site : Site) (fs : FS)
    (store store1 : list Page) (i : nat) (page : Page)
    (outHtml filename name text : jsstring) :
  prepareWrite site store i = Some (store1, page, outHtml) →
  skipWrite fs outHtml page = false →
  get page (lit "filename") = VStr filename →
  get page (lit "template") = VStr name →
  let own := path_join (path_dirname filename) name in
  isDirectory fs own = true →
  ¬ lit "pug" `suffix_of` own →
  get page (lit "content") = VStr text →
  getTemplateDir fs page site = Some (Some own)
  ∧ writePage site fs store i
    = Some (<[i := <[lit "writeTime" := VDate (clock fs)]> page]> store1,
            writeFileSync fs outHtml text,
            Written (Some own) outHtml text).
Proof.
  intros Hprep Hskip Hf Hn own Hdir Hpug Hcontent.
  assert (getTemplateDir fs page site = Some (Some own)) as Htemplate.
  { unfold getTemplateDir, templateDirsOf. rewrite Hf, Hn. simpl.
    fold own. unfold existsSync. rewrite Hdir. by rewrite orb_true_r. }
  split; [done|].
  unfold writePage. rewrite Hprep. simpl. rewrite Hskip, Htemplate. simpl.
  unfold renderPage, lodash_endsWith.
  rewrite bool_decide_eq_false_2 by done. rewrite Hcontent. simpl.
  unfold getModifiedDate, writeFileSync. simpl.
  by rewrite lookup_insert_eq.
Qed.

(** X19. A failure in one page's write aborts [writePages] as a whole:
    when [dateFormat] throws on the first page's date, or the first page's
    pug template does not compile, no result is returned for any page. *)
Theorem writePages_aborts_on_first_page (site : Site) (fs : FS) (page : Page)
    (rest : list Page) (refs : list nat) :
  pages site = page :: rest →
  get page (lit "subpages") = VRefs refs →
  let fmt :=
    if truthy (get page (lit "dateFormatString"))
    then get page (lit "dateFormatString")
    else VStr (dateFormatString site) in
  (dateFormat (get page (lit "date")) fmt = None → writePages site fs = None)
  ∧ (∀ store1 page1 outHtml template f,
       prepareWrite site (pages site) 0 = Some (store1, page1, outHtml) →
       skipWrite fs outHtml page1 = false →
       getTemplateDir fs page1 site = Some (Some template) →
       lit "pug" `suffix_of` template →
       entries fs !! template = Some f →
       pug_render template (data f) page1 (set_pages site store1) = None →
       writePages site fs = None).
Proof.
  intros Hpages Hsub fmt. split.
  - intros Hdate. unfold writePages. rewrite Hpages. simpl.
    unfold writePage, prepareWrite. simpl. rewrite Hsub. simpl.
    fold fmt. by rewrite Hdate.
  - intros store1 page1 outHtml template f Hprep Hskip Ht Hpug Hf Hrender.
    unfold writePages. rewrite Hpages in *. simpl.
    unfold writePage. rewrite Hprep. simpl. rewrite Hskip, Ht. simpl.
    unfold renderPage, lodash_endsWith.
    rewrite bool_decide_eq_true_2 by done. simpl. rewrite Hf. simpl.
    by rewrite Hrender.
Qed.

End WriterFrame.

(** ** The driver: loading the cache *)

Section DriverCache.
Context {collab : Collaborators}.

(** X20. The cache is bypassed only through [site.forced]: when that
    property is truthy, or when there is no file at the cache path, the
    site enters resolution with the pages it had; and a cache file that
    does not parse aborts the run before any page is resolved. *)
Theorem loadCachedPages_bypass_and_failure (site : Site) (fs : FS) :
  (truthy (forced site) = true → loadCachedPages site fs = Some site)
  ∧ (entries fs !! cachedPages site = None →
     loadCachedPages site fs = Some site)
  ∧ (∀ f, truthy (forced site) = false →
          entries fs !! cachedPages site = Some f →
          JSON_parse (data f) = None →
          processSite site fs = None)
  ∧ (∀ f records, truthy (forced site) = false →
          entries fs !! cachedPages site = Some f →
          JSON_parse (data f) = Some records →
          loadCachedPages site fs
          = Some (set_pages site (pages site ++ records))).
Proof.
  unfold processSite, loadCachedPages, isFile. split; [by intros ->|].
  split.
  { intros ->. rewrite bool_decide_eq_false_2 by (by intros [? ?]).
    by rewrite andb_false_r. }
  split.
  - intros f -> Hf Hparse. rewrite Hf.
    rewrite bool_decide_eq_true_2 by eauto. simpl. by rewrite Hparse.
  - intros f records -> Hf Hparse. rewrite Hf.
    rewrite bool_decide_eq_true_2 by eauto. simpl. by rewrite Hparse.
Qed.

End DriverCache.

(** ** Discovery *)

Section Discovery.
Context {collab : Collaborators}.

(** X21. [getFiles] asks globule once per extension, in the order of the
    extensions, with the pattern [dir/*ext], or [dir/**/*ext] when the
    recursive flag is set, and returns the answers one after the other:
    nothing for an empty list of extensions, and a file once for every
    extension whose pattern it matches. *)
Theorem getFiles_concat (fs : FS) (dir : jsstring) (exts : list jsstring)
    (rec : JSVal) :
  getFiles fs dir exts rec
  = concat (map (λ ext, globule_find fs (fileTagOf dir rec ext)) exts)
  ∧ getFiles fs dir [] rec = []
  ∧ ∀ file, file ∈ getFiles fs dir exts rec
            ↔ ∃ ext, ext ∈ exts
                     ∧ file ∈ globule_find fs (fileTagOf dir rec ext).
Proof.
  assert (∀ acc,
            foldl (λ found ext,
                     let fileTag :=
                       if truthy rec then path_join dir (lit "**/*" ++ ext)
                       else path_join dir (lit "*" ++ ext) in
                     found ++ globule_find fs fileTag) acc exts
            = acc ++ concat (map (λ ext, globule_find fs
                                           (fileTagOf dir rec ext)) exts))
    as Hfold.
  { induction exts as [|ext exts IH]; intros acc; simpl.
    - by rewrite app_nil_r.
    - rewrite IH, <- app_assoc. unfold fileTagOf at 2.
      by destruct (truthy rec). }
  assert (getFiles fs dir exts rec
          = concat (map (λ ext, globule_find fs (fileTagOf dir rec ext)) exts))
    as Heq by (unfold getFiles; by rewrite Hfold).
  split; [done|]. split; [done|].
  intros file. rewrite Heq. clear Hfold Heq.
  induction exts as [|ext exts IH]; simpl.
  - split; [by intros ?%elem_of_nil | by intros (? & ?%elem_of_nil & _)].
  - rewrite elem_of_app, IH. split.
    + intros [Hfile|(e & He & Hfile)].
      * exists ext. split; [by left | done].
      * exists e. split; [by right | done].
    + intros (e & [->|He]%elem_of_cons & Hfile); [by left|].
      right. by exists e.
Qed.

End Discovery.

(** ** The writer: dates of listed pages *)

Section WriterDates.
Context {collab : Collaborators}.

Lemma formatDates_other (fmt : JSVal) (refs : list nat)
    (store store' : list Page) (k : nat) :
  formatDates fmt refs store = Some store' → k ∉ refs →
  store' !! k = store !! k.
Proof.
  revert store. induction refs as [|r refs IH]; intros store; simpl.
  - by intros [= <-].
  - destruct (store !! r) as [p|]; [|done]. simpl.
    destruct (dateFormat _ _) as [d|]; [|done]. simpl.
    intros Hrest Hk. apply not_elem_of_cons in Hk as [Hkr Hk].
    rewrite (IH _ Hrest Hk). by apply list_lookup_insert_ne.
Qed.

Lemma formatDates_listed (fmt : JSVal) (refs : list nat)
    (store store' : list Page) (j : nat) (pj : Page) :
  formatDates fmt refs store = Some store' → NoDup refs → j ∈ refs →
  store !! j = Some pj →
  ∃ d, dateFormat (get pj (lit "date")) fmt = Some d
       ∧ store' !! j = Some (<[lit "date" := d]> pj).
Proof.
  revert store. induction refs as [|r refs IH]; intros store; simpl.
  - by intros _ _ ?%elem_of_nil.
  - destruct (store !! r) as [p|] eqn:Hr; [|done]. simpl.
    destruct (dateFormat (get p (lit "date")) fmt) as [d|] eqn:Hd; [|done].
    simpl. intros Hrest [Hnotin Hnd]%NoDup_cons [->|Hj]%elem_of_cons Hpj.
    + rewrite Hr in Hpj. injection Hpj as ->. exists d. split; [done|].
      rewrite (formatDates_other _ _ _ _ r Hrest Hnotin).
      apply list_lookup_insert_eq. by eapply lookup_lt_Some.
    + apply (IH _ Hrest Hnd Hj).
      rewrite list_lookup_insert_ne; [done|]. by intros ->.
Qed.

(** X22. Before it writes an index page, [writePages] formats, with the
    index page's own date format, the [date] of the page and of every page
    its [subpages] list, and stores the result in the listed pages
    themselves: the store holds the listed page with its date replaced, so
    the page's own write, and any later listing, see the formatted date.
    No other page is touched. *)
Theorem prepareWrite_formats_listed_pages (site : Site)
    (store store1 : list Page) (i : nat) (page page1 : Page)
    (refs : list nat) (outHtml : jsstring) :
  store !! i = Some page →
  get page (lit "subpages") = VRefs refs →
  NoDup (i :: refs) →
  prepareWrite site store i = Some (store1, page1, outHtml) →
  let fmt :=
    if truthy (get page (lit "dateFormatString"))
    then get page (lit "dateFormatString")
    else VStr (dateFormatString site) in
  (∀ j pj, j ∈ i :: refs → store !! j = Some pj →
     ∃ d, dateFormat (get pj (lit "date")) fmt = Some d
          ∧ store1 !! j = Some (<[lit "date" := d]> pj))
  ∧ (∀ k, k ∉ i :: refs → store1 !! k = store !! k).
Proof.
  intros Hi Hsub Hnd Hprep fmt. unfold prepareWrite in Hprep.
  rewrite Hi in Hprep. simpl in Hprep. rewrite Hsub in Hprep.
  simpl in Hprep. fold fmt in Hprep.
  destruct (store !! i) as [p0|] eqn:Hi0; [|done]. injection Hi as ->.
  simpl in Hprep.
  destruct (dateFormat (get page (lit "date")) fmt) as [d0|] eqn:Hd0; [|done].
  simpl in Hprep.
  destruct (formatDates fmt refs _) as [st|] eqn:Hfmt; [|done].
  simpl in Hprep.
  assert (formatDates fmt (i :: refs) store = Some st) as Hall
    by (simpl; rewrite Hi0; simpl; rewrite Hd0; simpl; exact Hfmt).
  destruct (st !! i) as [q|]; [|done]. simpl in Hprep.
  destruct (as_string _); [|done]. simpl in Hprep.
  injection Hprep as <- _ _. split.
  - intros j pj Hj Hpj. by eapply formatDates_listed.
  - intros k Hk. by eapply formatDates_other.
Qed.

End WriterDates.

(** ** Runs of the further properties on the sample site *)

Section FurtherSample.
#[local] Existing Instance Sample.collaborators.

Lemma readPages_one_page_per_file_witness :
  ∃ (site' : Site) (nSkip : nat),
    readPages Sample.site Sample.fs = Some (site', nSkip)
    ∧ NoDup (files site').
Proof.
  assert (bool_decide (is_Some (readPages Sample.site Sample.fs)) = true)
    as Hsome by (vm_compute; reflexivity).
  apply bool_decide_eq_true in Hsome. destruct Hsome as [[site' nSkip] Hrun].
  exists site', nSkip. split; [exact Hrun|].
  exact (proj1 (readPages_one_page_per_file (collab := Sample.collaborators)
                  Sample.site site' Sample.fs nSkip Hrun)).
Defined.

Lemma readPages_aborts_on_bad_source_witness :
  readPages (set_files Sample.site [lit "a.md"; lit "b.md"]) Sample.fs = None.
Proof.
  apply (readPages_aborts_on_bad_source (collab := Sample.collaborators)
           (set_files Sample.site [lit "a.md"; lit "b.md"]) Sample.fs
           (lit "b.md")).
  - vm_compute. right. left.
  - left. vm_compute. reflexivity.
Defined.

Lemma cachedPagesOf_last_wins_witness :
  cachedPagesOf
    [Sample.cachedRecord VUndefined VUndefined;
     Sample.cachedRecord (VIso 1577836800500) VUndefined]
  !! lit "a.md"
  = Some (Sample.cachedRecord (VIso 1577836800500) VUndefined).
Proof.
  apply (proj1 (cachedPagesOf_last_wins (collab := Sample.collaborators)
                  [Sample.cachedRecord VUndefined VUndefined] []
                  (Sample.cachedRecord (VIso 1577836800500) VUndefined)
                  (λ q Hq, False_ind _ (proj1 (elem_of_nil q) Hq)))).
Defined.

Lemma refreshPage_precedence_witness :
  ∃ mid : Page,
    refreshPage Sample.fs (lit "a.md") (startPage ∅ (lit "a.md"))
    = Some (mid, false)
    ∧ mid !! lit "content" = Some (VStr (convertCommonmarkToHtml (lit "hi"))).
Proof.
  destruct (refreshPage_precedence (collab := Sample.collaborators)
              Sample.fs (lit "a.md") ∅ (mkFile 1577836800500 (lit "hi")) ∅
              (lit "hi")) as (mid & Hmid & Hcontent & _).
  - vm_compute. reflexivity.
  - reflexivity.
  - vm_compute. reflexivity.
  - exists mid. split; assumption.
Defined.

Lemma readPage_unchanged_ignores_source_witness :
  readPage Sample.site (Sample2.unchangedFs "hi")
    (Sample.cacheOf (Sample.cachedRecord (VIso 1577836800000) VUndefined))
    (lit "a.md")
  = readPage Sample.site (Sample2.unchangedFs "changed")
      (Sample.cacheOf (Sample.cachedRecord (VIso 1577836800000) VUndefined))
      (lit "a.md").
Proof.
  apply (proj2 (readPage_unchanged_ignores_source
                  (collab := Sample.collaborators) Sample.site
                  (Sample2.unchangedFs "hi") (Sample2.unchangedFs "changed")
                  (Sample.cacheOf
                     (Sample.cachedRecord (VIso 1577836800000) VUndefined))
                  (lit "a.md") (mkFile 1577836800000 (lit "hi"))
                  (mkFile 1577836800000 (lit "changed"))
                  ltac:(vm_compute; reflexivity) ltac:(vm_compute; reflexivity)
                  eq_refl ltac:(vm_compute; reflexivity))).
Defined.

Lemma readPage_target_relSiteUrl_witness :
  ∃ (page' : Page) (skipped : bool) (target rel : jsstring),
    readPage Sample.site Sample.fs ∅ (lit "a.md") = Some (page', skipped)
    ∧ as_string (get page' (lit "target")) = Some target
    ∧ get page' (lit "relSiteUrl") = VStr rel
    ∧ rel ≠ [].
Proof.
  assert (bool_decide
            (is_Some (readPage Sample.site Sample.fs ∅ (lit "a.md"))) = true)
    as Hsome by (vm_compute; reflexivity).
  apply bool_decide_eq_true in Hsome. destruct Hsome as [[page' skipped] Hrun].
  destruct (readPage_target_relSiteUrl (collab := Sample.collaborators)
              Sample.site Sample.fs ∅ (lit "a.md") page' skipped Hrun)
    as (target & rel & Ht & Hr & Hne & _).
  exists page', skipped, target, rel. repeat split; assumption.
Defined.

Lemma readPage_content_ascii_witness :
  ∃ (page' : Page) (skipped : bool) (c : jsstring),
    readPage Sample.site Sample.fs ∅ (lit "a.md") = Some (page', skipped)
    ∧ get page' (lit "content") = VStr c ∧ Forall is_ascii c.
Proof.
  assert (bool_decide
            (is_Some (readPage Sample.site Sample.fs ∅ (lit "a.md"))) = true)
    as Hsome by (vm_compute; reflexivity).
  apply bool_decide_eq_true in Hsome. destruct Hsome as [[page' skipped] Hrun].
  destruct (readPage_content_ascii (collab := Sample.collaborators)
              Sample.site Sample.fs ∅ (lit "a.md") page' skipped Hrun)
    as (c & Hc & Hascii).
  exists page', skipped, c. repeat split; assumption.
Defined.

Lemma generateIndexableSubpages_references_witness :
  ∃ (p' : Page) (refs : list nat),
    pages (generateIndexableSubpages (set_pages Sample.site Sample.blog))
    !! 3%nat = Some p'
    ∧ (get p' (lit "subpages") = VRefs refs
       ∨ get p' (lit "subpages") = VRefObj refs)
    ∧ NoDup refs.
Proof.
  destruct (proj2 (generateIndexableSubpages_frame
                     (collab := Sample.collaborators)
                     (set_pages Sample.site Sample.blog))
                  3%nat (Sample.blogIndex 5) eq_refl)
    as (p' & Hp' & Hagree & _).
  destruct (generateIndexableSubpages_references
              (collab := Sample.collaborators)
              (set_pages Sample.site Sample.blog) 3 p' Hp')
    as (refs & Hrefs & Hnd & _).
  - rewrite (Hagree (lit "index")) by key_ne. vm_compute. reflexivity.
  - exists p', refs. repeat split; assumption.
Defined.

Lemma indexStep_top_k_ascending_witness :
  top_k (ascending_stable
           (λ j, get (deref Sample2.ascendingBlog j) (lit "weight")))
        (candidates Sample2.ascendingBlog (VStr (lit "blog"))) 5
        (get (deref (indexStep Sample2.ascendingBlog 3) 3) (lit "subpages")).
Proof.
  apply (indexStep_top_k_ascending (collab := Sample.collaborators)
           Sample2.ascendingBlog 3
           (<[lit "sortReverse" := VBool false]> (Sample.blogIndex 5))
           (lit "blog") (lit "weight") 5).
  - reflexivity.
  - vm_compute. reflexivity.
  - vm_compute. reflexivity.
  - intros E. vm_compute in E. discriminate E.
  - vm_compute. reflexivity.
  - intros E. vm_compute in E. discriminate E.
  - vm_compute. reflexivity.
  - vm_compute. reflexivity.
  - lia.
  - intros j Hj.
    assert (candidates Sample2.ascendingBlog (VStr (lit "blog"))
            = [0; 1; 2]%nat) as E by (vm_compute; reflexivity).
    rewrite E in Hj.
    repeat (apply elem_of_cons in Hj as [->|Hj]);
      [eexists; vm_compute; reflexivity ..|].
    by apply elem_of_nil in Hj.
Defined.

Lemma indexSubpages_unsorted_witness :
  ∃ refs : list nat,
    collection_value (indexSubpages Sample.blog Sample2.unsortedIndex)
    = VRefs refs
    ∧ refs `prefix_of` candidates Sample.blog (VStr (lit "blog")).
Proof.
  destruct (indexSubpages_unsorted (collab := Sample.collaborators)
              Sample.blog Sample2.unsortedIndex (lit "blog"))
    as (refs & Hrefs & Hprefix & _).
  - vm_compute. reflexivity.
  - intros E. vm_compute in E. discriminate E.
  - vm_compute. reflexivity.
  - exists refs. split; assumption.
Defined.

Lemma indexSubpages_no_category_no_sortKey_witness :
  collection_value (indexSubpages Sample.blog Sample2.bareIndex)
  = (if truthy (get Sample2.bareIndex (lit "maxSubpages")) then VRefs []
     else VRefObj (nonIndexRefs Sample.blog)).
Proof.
  apply (proj1 (indexSubpages_no_category_no_sortKey
                  (collab := Sample.collaborators) Sample.blog
                  Sample2.bareIndex 0
                  ltac:(vm_compute; reflexivity)
                  ltac:(vm_compute; reflexivity))).
Defined.

Lemma getTemplateDir_first_match_witness :
  getTemplateDir Sample.fs
    (Sample.cachedRecord (VDate 1577836800500) VUndefined) Sample.site
  = Some (Some (lit "/opt/embellij/defaults/default.pug")).
Proof.
  apply (proj1 (proj2 (proj2 (getTemplateDir_first_match
                  (collab := Sample.collaborators) Sample.fs Sample.site
                  (Sample.cachedRecord (VDate 1577836800500) VUndefined)
                  (lit "a.md") (lit "default.pug")
                  ltac:(vm_compute; reflexivity)
                  ltac:(vm_compute; reflexivity))))).
  all: vm_compute; reflexivity.
Defined.

Lemma writePage_frame_witness :
  ∃ (store' : list Page) (fs' : FS) (outcome : WriteOutcome),
    writePage Sample.site Sample.fs [Sample.untemplated] 0
    = Some (store', fs', outcome)
    ∧ length store' = 1%nat ∧ clock fs' = clock Sample.fs.
Proof.
  assert (bool_decide
            (is_Some (writePage Sample.site Sample.fs [Sample.untemplated] 0))
          = true) as Hsome by (vm_compute; reflexivity).
  apply bool_decide_eq_true in Hsome.
  destruct Hsome as [[[store' fs'] outcome] Hrun].
  destruct (writePage_frame (collab := Sample.collaborators) Sample.site
              Sample.fs fs' [Sample.untemplated] store' 0 outcome Hrun)
    as (Hlen & Hclock & _).
  exists store', fs', outcome. repeat split; assumption.
Defined.

Lemma writePage_non_pug_template_witness :
  writePage Sample.site Sample2.htmlTemplateFs [Sample2.htmlTemplated] 0
  = Some (<[0%nat := <[lit "writeTime" := VDate (clock Sample2.htmlTemplateFs)]>
                       Sample2.htmlTemplated]> [Sample2.htmlTemplated],
          writeFileSync Sample2.htmlTemplateFs (lit "./a.html")
            (lit "<p>old</p>"),
          Written (Some (lit "./page.html")) (lit "./a.html")
            (lit "<p>old</p>")).
Proof.
  apply (writePage_non_pug_template (collab := Sample.collaborators)
           Sample.site Sample2.htmlTemplateFs [Sample2.htmlTemplated]
           [Sample2.htmlTemplated] 0 Sample2.htmlTemplated (lit "./a.html")
           (lit "./page.html") (lit "<p>old</p>")).
  - vm_cast_no_check
      (eq_refl (Some ([Sample2.htmlTemplated], Sample2.htmlTemplated,
                      lit "./a.html"))).
  - vm_compute. reflexivity.
  - vm_compute. reflexivity.
  - apply (proj1 (bool_decide_eq_false _)). vm_compute. reflexivity.
  - vm_compute. reflexivity.
Defined.

Lemma writePages_aborts_on_first_page_witness :
  writePages (collab := Sample2.throwingDates)
    (set_pages Sample.site [Sample.untemplated]) Sample.fs
  = None.
Proof.
  apply (proj1 (writePages_aborts_on_first_page
                  (collab := Sample2.throwingDates)
                  (set_pages Sample.site [Sample.untemplated]) Sample.fs
                  Sample.untemplated [] [] eq_refl
                  ltac:(vm_compute; reflexivity))).
  reflexivity.
Defined.

Lemma writePage_directory_template_witness :
  let page := <[lit "template" := VStr (lit "layouts")]> Sample.untemplated in
  getTemplateDir Sample.fs page Sample.site = Some (Some (lit "./layouts"))
  ∧ writePage Sample.site Sample.fs [page] 0
    = Some (<[0%nat := <[lit "writeTime" := VDate (clock Sample.fs)]> page]>
              [page],
            writeFileSync Sample.fs (lit "./a.html") (lit "<p>old</p>"),
            Written (Some (lit "./layouts")) (lit "./a.html")
                    (lit "<p>old</p>")).
Proof.
  intros page.
  apply (writePage_directory_template (collab := Sample.collaborators)
           Sample.site Sample.fs [page] [page] 0 page (lit "./a.html")
           (lit "a.md") (lit "layouts") (lit "<p>old</p>")).
  - vm_cast_no_check (eq_refl (Some ([page], page, lit "./a.html"))).
  - vm_cast_no_check (eq_refl false).
  - vm_cast_no_check (eq_refl (VStr (lit "a.md"))).
  - vm_cast_no_check (eq_refl (VStr (lit "layouts"))).
  - vm_cast_no_check (eq_refl true).
  - intros Hsuffix.
    assert (bool_decide (lit "pug" `suffix_of` lit "./layouts") = true) as Hb
      by (by apply bool_decide_eq_true_2).
    vm_compute in Hb. discriminate Hb.
  - vm_cast_no_check (eq_refl (VStr (lit "<p>old</p>"))).
Defined.

End FurtherSample.

Section WriterDatesSample.
#[local] Existing Instance Sample.collaborators.

Lemma prepareWrite_formats_listed_pages_witness :
  ∃ d,
    dateFormat (get (Sample.post "first.md" 1) (lit "date"))
      (if truthy (get Sample2.listingIndex (lit "dateFormatString"))
       then get Sample2.listingIndex (lit "dateFormatString")
       else VStr (dateFormatString Sample.site))
    = Some d
    ∧ Sample2.listedStore1 !! 0%nat
      = Some (<[lit "date" := d]> (Sample.post "first.md" 1)).
Proof.
  assert (Sample2.listedStore !! 1%nat = Some Sample2.listingIndex) as H1
    by reflexivity.
  assert (get Sample2.listingIndex (lit "subpages") = VRefs [0%nat]) as H2
    by (vm_compute; reflexivity).
  assert (NoDup [1; 0]%nat) as H3.
  { apply NoDup_cons. split; [|apply NoDup_singleton].
    intros E%list_elem_of_singleton. discriminate E. }
  assert (prepareWrite Sample.site Sample2.listedStore 1
          = Some (Sample2.listedStore1,
                  <[lit "date" := VNull]> Sample2.listingIndex, lit "./"))
    as H4
    by vm_cast_no_check
         (eq_refl (Some (Sample2.listedStore1,
                         <[lit "date" := VNull]> Sample2.listingIndex,
                         lit "./"))).
  assert (0 ∈ [1; 0])%nat as H5 by (right; left).
  exact (proj1 (prepareWrite_formats_listed_pages
                  (collab := Sample.collaborators) Sample.site
                  Sample2.listedStore Sample2.listedStore1 1
                  Sample2.listingIndex
                  (<[lit "date" := VNull]> Sample2.listingIndex)
                  [0%nat] (lit "./") H1 H2 H3 H4)
               0%nat (Sample.post "first.md" 1) H5 eq_refl).
Defined.

End WriterDatesSample.
